(** * Malloy publisher client: a shallow embedding of
      [malloy_mcp_server/api_client/models.py] and
      [malloy_mcp_server/api_client/client.py].

    Python values decoded by [response.json()] are JSON trees, dicts are
    insertion-ordered association lists, exceptions are a result type, and
    the mutable client object is threaded through a small state-and-error
    monad whose state also keeps the trace of requests sent and of calls to
    [close]. *)

From Stdlib Require Import ZArith List String Ascii Bool Lia.
From Stdlib Require Import Floats.SpecFloat.
From Stdlib Require Import DecimalString.
Import ListNotations.
Open Scope string_scope.
Open Scope Z_scope.

(** ** Python values *)

(** A Python float is an IEEE-754 binary64 value. *)
Definition PyFloat : Type := spec_float.

(** What [json.loads] builds: None, bool, int, float, str, list, dict. *)
#[local] Set Warnings "-register-all".
Inductive JSON : Type :=
| JNull
| JBool (b : bool)
| JInt (z : Z)
| JFloat (f : PyFloat)
| JStr (s : string)
| JArr (items : list JSON)
| JObj (members : list (string * JSON)).

(** A dict with string keys, in insertion order. *)
Definition Dict : Type := list (string * JSON).

Fixpoint dict_get (k : string) (d : Dict) : option JSON :=
  match d with
  | [] => None
  | (k', v) :: rest => if String.eqb k k' then Some v else dict_get k rest
  end.

(** [d[k] = v]: an existing key keeps its position, a new key goes last. *)
Fixpoint dict_set (k : string) (v : JSON) (d : Dict) : Dict :=
  match d with
  | [] => [(k, v)]
  | (k', v') :: rest =>
      if String.eqb k k' then (k, v) :: rest else (k', v') :: dict_set k v rest
  end.

(** [d.pop(k)] without a default: the value and the remaining dict, or
    nothing when the key is missing (Python raises KeyError there). *)
Fixpoint dict_pop (k : string) (d : Dict) : option (JSON * Dict) :=
  match d with
  | [] => None
  | (k', v) :: rest =>
      if String.eqb k k' then Some (v, rest)
      else match dict_pop k rest with
           | Some (x, rest') => Some (x, (k', v) :: rest')
           | None => None
           end
  end.

(** ** Exceptions *)

(** One entry of a pydantic validation error: where, and which check. *)
Record ErrorDetails : Type := mkErrorDetails {
  loc : list string;
  err_type : string
}.

(** pydantic's [ValidationError]: the model it was raised for and its
    entries, in field order. *)
Record ValidationError : Type := mkValidationError {
  title : string;
  errors : list ErrorDetails
}.

(** The [message] of an [APIError] is a string taken from the body, a
    literal of the client, or [str(e)] of a validation error [e]; the last
    is kept as the error it renders. *)
Inductive Message : Type :=
| Text (s : string)
| StrOf (e : ValidationError).

Inductive Exception : Type :=
| ValueError (msg : string)
| APIError (status_code : Z) (message : Message)
| PydanticValidationError (e : ValidationError)
| JSONDecodeError
| KeyError (key : string)
| TypeError
| AttributeError
| RuntimeError (msg : string)
| HTTPStatusError (status_code : Z)
| TransportError (name : string).

Inductive Result (A : Type) : Type :=
| Return (a : A)
| Raise (e : Exception).
Arguments Return {A} a.
Arguments Raise {A} e.

Definition rbind {A B} (r : Result A) (k : A -> Result B) : Result B :=
  match r with
  | Return a => k a
  | Raise e => Raise e
  end.

Fixpoint rmap {A B} (f : A -> Result B) (l : list A) : Result (list B) :=
  match l with
  | [] => Return []
  | x :: rest =>
      rbind (f x) (fun y => rbind (rmap f rest) (fun ys => Return (y :: ys)))
  end.

Definition is_APIError (e : Exception) : bool :=
  match e with APIError _ _ => true | _ => false end.

Definition is_ValidationError (e : Exception) : bool :=
  match e with PydanticValidationError _ => true | _ => false end.

Definition is_ValueError (e : Exception) : bool :=
  match e with ValueError _ => true | _ => false end.

(** ** Operations of Python on decoded values *)

Fixpoint chars (s : string) : list JSON :=
  match s with
  | EmptyString => []
  | String c rest => JStr (String c EmptyString) :: chars rest
  end.

(** [for x in data]: a list yields its items, a dict its keys, a str its
    characters; None, bool, int and float are not iterable. *)
Definition py_iter (data : JSON) : Result (list JSON) :=
  match data with
  | JArr items => Return items
  | JObj members => Return (map (fun kv => JStr (fst kv)) members)
  | JStr s => Return (chars s)
  | _ => Raise TypeError
  end.

(** [data[k] = v] with a string key: only a dict supports it. *)
Definition py_setitem (k : string) (v : JSON) (data : JSON) : Result JSON :=
  match data with
  | JObj members => Return (JObj (dict_set k v members))
  | _ => Raise TypeError
  end.

(** [data.pop(k)] with a string key: KeyError on a dict without the key,
    TypeError on a list (its pop wants an index), AttributeError on the
    values that have no [pop]. *)
Definition py_pop (k : string) (data : JSON) : Result (JSON * JSON) :=
  match data with
  | JObj members =>
      match dict_pop k members with
      | Some (v, rest) => Return (v, JObj rest)
      | None => Raise (KeyError k)
      end
  | JArr _ => Raise TypeError
  | _ => Raise AttributeError
  end.

(** Truthiness of a [str | None]: neither None nor the empty string. *)
Definition truthy (s : option string) : bool :=
  match s with
  | Some s => negb (String.eqb s "")
  | None => false
  end.

(** ** pydantic validation *)

Inductive Validated (A : Type) : Type :=
| Valid (a : A)
| Invalid (errs : list ErrorDetails).
Arguments Valid {A} a.
Arguments Invalid {A} errs.

(** Fields are validated one after the other and every failure is kept. *)
Definition vap {A B} (f : Validated (A -> B)) (x : Validated A) : Validated B :=
  match f, x with
  | Valid g, Valid a => Valid (g a)
  | Valid _, Invalid e => Invalid e
  | Invalid e, Valid _ => Invalid e
  | Invalid e1, Invalid e2 => Invalid (e1 ++ e2)%list
  end.

Notation "f <*> x" := (vap f x) (at level 40, left associativity).

(** A validator reads the value found at location [loc]. *)
Definition Validator (A : Type) : Type := list string -> JSON -> Validated A.

Definition fail_at {A} (loc : list string) (ty : string) : Validated A :=
  Invalid [mkErrorDetails loc ty].

(** [str]: only a string passes (no coercion from numbers). *)
Definition str_validator : Validator string :=
  fun loc v => match v with
               | JStr s => Valid s
               | _ => fail_at loc "string_type"
               end.

(** The scalar validators of pydantic for [int] and [float] fields belong
    to the library; the development is parametric in which values they
    accept, and does not tell apart the ways they can fail. *)
Class Scalars : Type := {
  int_accepts : JSON -> option Z;
  float_accepts : JSON -> option PyFloat
}.

Definition int_validator {sc : Scalars} : Validator Z :=
  fun loc v => match int_accepts v with
               | Some z => Valid z
               | None => fail_at loc "int_type"
               end.

Definition float_validator {sc : Scalars} : Validator PyFloat :=
  fun loc v => match float_accepts v with
               | Some f => Valid f
               | None => fail_at loc "float_type"
               end.

(** A field without a default: looked up under its wire name [alias]. *)
Definition required {A} (alias : string) (v : Validator A)
    (loc : list string) (d : Dict) : Validated A :=
  match dict_get alias d with
  | Some x => v (loc ++ [alias])%list x
  | None => fail_at (loc ++ [alias])%list "missing"
  end.

(** The same under [populate_by_name=True]: the alias first, then the
    field's own name. *)
Definition required_by_name {A} (alias name : string) (v : Validator A)
    (loc : list string) (d : Dict) : Validated A :=
  match dict_get alias d with
  | Some x => v (loc ++ [alias])%list x
  | None =>
      match dict_get name d with
      | Some x => v (loc ++ [name])%list x
      | None => fail_at (loc ++ [alias])%list "missing"
      end
  end.

(** [T | None = Field(None, alias=...)]: absent or null gives None. *)
Definition optional {A} (alias : string) (v : Validator A)
    (loc : list string) (d : Dict) : Validated (option A) :=
  match dict_get alias d with
  | None => Valid None
  | Some JNull => Valid None
  | Some x => Valid (@Some A) <*> v (loc ++ [alias])%list x
  end.

(** A nested model field: the value has to be a dict. *)
Definition nested {A} (fields : list string -> Dict -> Validated A) : Validator A :=
  fun loc v => match v with
               | JObj d => fields loc d
               | _ => fail_at loc "model_type"
               end.

(** Instantiating a model from the keywords of [data]: the unpacking
    wants a mapping, then the fields are validated. *)
Definition model_init {A} (name : string)
    (fields : list string -> Dict -> Validated A) (data : JSON) : Result A :=
  match data with
  | JObj d =>
      match fields [] d with
      | Valid a => Return a
      | Invalid errs => Raise (PydanticValidationError (mkValidationError name errs))
      end
  | _ => Raise TypeError
  end.

(** ** models.py *)

Inductive ModelType : Type := SOURCE | NOTEBOOK.

Definition ModelType_validator : Validator ModelType :=
  fun loc v => match v with
               | JStr "source" => Valid SOURCE
               | JStr "notebook" => Valid NOTEBOOK
               | _ => fail_at loc "enum"
               end.

Inductive CellType : Type := MARKDOWN | CODE.

Definition CellType_validator : Validator CellType :=
  fun loc v => match v with
               | JStr "markdown" => Valid MARKDOWN
               | JStr "code" => Valid CODE
               | _ => fail_at loc "enum"
               end.

Inductive DatabaseType : Type := POSTGRES | BIGQUERY | SNOWFLAKE | TRINO.

Definition DatabaseType_validator : Validator DatabaseType :=
  fun loc v => match v with
               | JStr "postgres" => Valid POSTGRES
               | JStr "bigquery" => Valid BIGQUERY
               | JStr "snowflake" => Valid SNOWFLAKE
               | JStr "trino" => Valid TRINO
               | _ => fail_at loc "enum"
               end.

Module Error.
Record t : Type := Build { code : string; message : string }.
Definition fields (loc : list string) (d : Dict) : Validated t :=
  Valid Build <*> required "code" str_validator loc d
              <*> required "message" str_validator loc d.
Definition init : JSON -> Result t := model_init "Error" fields.
End Error.

Module About.
Record t : Type := Build { readme : string }.
Definition fields (loc : list string) (d : Dict) : Validated t :=
  Valid Build <*> required "readme" str_validator loc d.
Definition init : JSON -> Result t := model_init "About" fields.
End About.

Module Project.
Record t : Type := Build { name : string }.
Definition fields (loc : list string) (d : Dict) : Validated t :=
  Valid Build <*> required "name" str_validator loc d.
Definition init : JSON -> Result t := model_init "Project" fields.
End Project.

Module Package.
Record t : Type := Build { name : string; description : string }.
Definition fields (loc : list string) (d : Dict) : Validated t :=
  Valid Build <*> required "name" str_validator loc d
              <*> required "description" str_validator loc d.
Definition init : JSON -> Result t := model_init "Package" fields.
End Package.

Module Model.
Record t : Type := Build {
  package_name : string;
  path : string;
  type : ModelType
}.
Definition fields (loc : list string) (d : Dict) : Validated t :=
  Valid Build <*> required "packageName" str_validator loc d
              <*> required "path" str_validator loc d
              <*> required "type" ModelType_validator loc d.
Definition init : JSON -> Result t := model_init "Model" fields.
End Model.

Module QueryResult.
Record t : Type := Build {
  data_styles : string;
  model_def : string;
  query_result : string
}.
(** [populate_by_name=True]; every field carries its own alias, which
    takes precedence over the alias generator. *)
Definition fields (loc : list string) (d : Dict) : Validated t :=
  Valid Build
    <*> required_by_name "dataStyles" "data_styles" str_validator loc d
    <*> required_by_name "modelDef" "model_def" str_validator loc d
    <*> required_by_name "queryResult" "query_result" str_validator loc d.
Definition init : JSON -> Result t := model_init "QueryResult" fields.
End QueryResult.

Module Database.
Record t : Type := Build { path : string; size : Z }.
Definition fields {sc : Scalars} (loc : list string) (d : Dict) : Validated t :=
  Valid Build <*> required "path" str_validator loc d
              <*> required "size" int_validator loc d.
Definition init {sc : Scalars} : JSON -> Result t := model_init "Database" fields.
End Database.

Module Schedule.
Record t : Type := Build {
  resource : string;
  schedule : string;
  action : string;
  connection : string;
  last_run_time : PyFloat;
  last_run_status : string
}.
Definition fields {sc : Scalars} (loc : list string) (d : Dict) : Validated t :=
  Valid Build <*> required "resource" str_validator loc d
              <*> required "schedule" str_validator loc d
              <*> required "action" str_validator loc d
              <*> required "connection" str_validator loc d
              <*> required "lastRunTime" float_validator loc d
              <*> required "lastRunStatus" str_validator loc d.
Definition init {sc : Scalars} : JSON -> Result t := model_init "Schedule" fields.
End Schedule.

Module PostgresConnection.
Record t : Type := Build {
  host : string;
  port : Z;
  database_name : string;
  user_name : string;
  password : string;
  connection_string : string
}.
Definition fields {sc : Scalars} (loc : list string) (d : Dict) : Validated t :=
  Valid Build <*> required "host" str_validator loc d
              <*> required "port" int_validator loc d
              <*> required "databaseName" str_validator loc d
              <*> required "userName" str_validator loc d
              <*> required "password" str_validator loc d
              <*> required "connectionString" str_validator loc d.
End PostgresConnection.

Module BigqueryConnection.
Record t : Type := Build {
  default_project_id : string;
  billing_project_id : string;
  location : string;
  service_account_key_json : string;
  maximum_bytes_billed : string;
  query_timeout_milliseconds : string
}.
Definition fields (loc : list string) (d : Dict) : Validated t :=
  Valid Build <*> required "defaultProjectId" str_validator loc d
              <*> required "billingProjectId" str_validator loc d
              <*> required "location" str_validator loc d
              <*> required "serviceAccountKeyJson" str_validator loc d
              <*> required "maximumBytesBilled" str_validator loc d
              <*> required "queryTimeoutMilliseconds" str_validator loc d.
End BigqueryConnection.

Module SnowflakeConnection.
Record t : Type := Build {
  account : string;
  username : string;
  password : string;
  warehouse : string;
  database : string;
  schema_name : string;
  response_timeout_milliseconds : Z
}.
Definition fields {sc : Scalars} (loc : list string) (d : Dict) : Validated t :=
  Valid Build <*> required "account" str_validator loc d
              <*> required "username" str_validator loc d
              <*> required "password" str_validator loc d
              <*> required "warehouse" str_validator loc d
              <*> required "database" str_validator loc d
              <*> required "schema" str_validator loc d
              <*> required "responseTimeoutMilliseconds" int_validator loc d.
End SnowflakeConnection.

Module TrinoConnection.
Record t : Type := Build {
  server : string;
  port : PyFloat;
  catalog : string;
  schema_name : string;
  user : string;
  password : string
}.
Definition fields {sc : Scalars} (loc : list string) (d : Dict) : Validated t :=
  Valid Build <*> required "server" str_validator loc d
              <*> required "port" float_validator loc d
              <*> required "catalog" str_validator loc d
              <*> required "schema" str_validator loc d
              <*> required "user" str_validator loc d
              <*> required "password" str_validator loc d.
End TrinoConnection.

Module Connection.
Record t : Type := Build {
  name : string;
  type : DatabaseType;
  postgres_connection : option PostgresConnection.t;
  bigquery_connection : option BigqueryConnection.t;
  snowflake_connection : option SnowflakeConnection.t;
  trino_connection : option TrinoConnection.t
}.
(** The six fields are validated independently of one another: the
    class declares no validator relating [type] to the sub-records. *)
Definition fields {sc : Scalars} (loc : list string) (d : Dict) : Validated t :=
  Valid Build
    <*> required "name" str_validator loc d
    <*> required "type" DatabaseType_validator loc d
    <*> optional "postgresConnection" (nested PostgresConnection.fields) loc d
    <*> optional "bigqueryConnection" (nested BigqueryConnection.fields) loc d
    <*> optional "snowflakeConnection" (nested SnowflakeConnection.fields) loc d
    <*> optional "trinoConnection" (nested TrinoConnection.fields) loc d.
Definition init {sc : Scalars} : JSON -> Result t := model_init "Connection" fields.
End Connection.

(** ** The HTTP layer (httpx) *)

(** A request as the client hands it to [httpx.Client.get]: the [url]
    argument (a path, relative to the base URL of the HTTP client), the
    query parameters and the headers set on the client. Merging the path
    with the base URL and normalising the result is httpx's work and is
    not part of this model. *)
Record Request : Type := mkRequest {
  url : string;
  params : list (string * string);
  headers : list (string * string)
}.

(** A response: its status code and what [response.json()] gives, [None]
    when the body is not JSON (the call then raises JSONDecodeError). *)
Record Response : Type := mkResponse {
  status_code : Z;
  json_body : option JSON
}.

Definition Response_json (response : Response) : Result JSON :=
  match json_body response with
  | Some data => Return data
  | None => Raise JSONDecodeError
  end.

(** What sending a request comes to: a response, or an exception of the
    transport. *)
Inductive Reply : Type :=
| Respond (response : Response)
| Fail (e : Exception).

Inductive ClientState : Type := UNOPENED | OPENED | CLOSED.

(** What the client did to the outside: requests put on the wire, calls of
    [MalloyAPIClient.close], and releases of the transport. *)
Inductive Event : Type :=
| EvRequest (r : Request)
| EvClose
| EvRelease.

(** [httpx.Client]: base URL, default headers and its open/closed state,
    with the transport it talks to and the trace of what happened so far. *)
Record HttpxClient : Type := mkHttpxClient {
  hx_base_url : string;
  hx_headers : list (string * string);
  hx_state : ClientState;
  transport : Request -> Reply;
  trace : list Event
}.

Definition is_closed (c : HttpxClient) : bool :=
  match hx_state c with CLOSED => true | _ => false end.

Definition requests (tr : list Event) : list Request :=
  flat_map (fun ev => match ev with EvRequest r => [r] | _ => [] end) tr.

Definition count_close (tr : list Event) : nat :=
  List.length (filter (fun ev => match ev with EvClose => true | _ => false end) tr).

Definition count_release (tr : list Event) : nat :=
  List.length (filter (fun ev => match ev with EvRelease => true | _ => false end) tr).

(** [httpx.Client.get]: a closed client refuses with RuntimeError before
    anything is sent; otherwise the request goes out and the client is
    open from then on. *)
Definition httpx_get (path : string) (ps : list (string * string))
    (c : HttpxClient) : Result Response * HttpxClient :=
  match hx_state c with
  | CLOSED =>
      (Raise (RuntimeError "Cannot send a request, as the client has been closed."), c)
  | _ =>
      let req := mkRequest path ps (hx_headers c) in
      let c' := mkHttpxClient (hx_base_url c) (hx_headers c) OPENED (transport c)
                              (trace c ++ [EvRequest req])%list in
      (match transport c req with
       | Respond response => Return response
       | Fail e => Raise e
       end, c')
  end.

(** [httpx.Client.close]: the transport is released unless the client is
    closed already. *)
Definition httpx_close (c : HttpxClient) : HttpxClient :=
  match hx_state c with
  | CLOSED => c
  | _ => mkHttpxClient (hx_base_url c) (hx_headers c) CLOSED (transport c)
                       (trace c ++ [EvRelease])%list
  end.

(** ** client.py *)

Definition HTTP_ERROR_STATUS : Z := 400.

Record QueryParams : Type := mkQueryParams {
  project_name : string;
  package_name : string;
  path : string;
  query : option string;
  source_name : option string;
  query_name : option string;
  version_id : option string
}.

Record MalloyAPIClient : Type := mkMalloyAPIClient {
  base_url : string;
  api_key : option string;
  client : HttpxClient
}.

(** [s.rstrip("/")] *)
Fixpoint rstrip_slash (s : string) : string :=
  match s with
  | EmptyString => EmptyString
  | String c rest =>
      match rstrip_slash rest with
      | EmptyString => if Ascii.eqb c "/" then EmptyString else String c EmptyString
      | rest' => String c rest'
      end
  end.

(** [MalloyAPIClient.__init__]; [net] is the network the new
    [httpx.Client] will talk to. *)
Definition MalloyAPIClient_init (net : Request -> Reply) (base : string)
    (key : option string) : MalloyAPIClient :=
  let base' := rstrip_slash base in
  mkMalloyAPIClient base' key
    (mkHttpxClient base'
       (match key with
        | Some k => if String.eqb k "" then [] else [("Authorization", "Bearer " ++ k)]
        | None => []
        end)
       UNOPENED net []).

(** Methods run on the client object: a result and the object afterwards. *)
Definition M (A : Type) : Type := MalloyAPIClient -> Result A * MalloyAPIClient.

Definition ret {A} (a : A) : M A := fun self => (Return a, self).
Definition raise {A} (e : Exception) : M A := fun self => (Raise e, self).
Definition lift {A} (r : Result A) : M A := fun self => (r, self).

Definition bind {A B} (m : M A) (k : A -> M B) : M B :=
  fun self =>
    match m self with
    | (Return a, self') => k a self'
    | (Raise e, self') => (Raise e, self')
    end.

Notation "x <- m ;; k" := (bind m (fun x => k))
  (at level 61, m at next level, right associativity).

(** [try: m except E: handler] for the exceptions [handler] picks. *)
Definition try_except {A} (m : M A) (handler : Exception -> option (M A)) : M A :=
  fun self =>
    match m self with
    | (Return a, self') => (Return a, self')
    | (Raise e, self') =>
        match handler e with
        | Some h => h self'
        | None => (Raise e, self')
        end
    end.

(** [self.client.get(path, params=ps)] *)
Definition client_get (path : string) (ps : list (string * string)) : M Response :=
  fun self =>
    let (r, c') := httpx_get path ps (client self) in
    (r, mkMalloyAPIClient (base_url self) (api_key self) c').

Definition _handle_response (response : Response) : Result JSON :=
  if HTTP_ERROR_STATUS <=? status_code response then
    match rbind (Response_json response) Error.init with
    | Return error => Raise (APIError (status_code response) (Text (Error.message error)))
    | Raise (PydanticValidationError e) => Raise (APIError (status_code response) (StrOf e))
    | Raise e => Raise e
    end
  else Response_json response.

(** [{"versionId": version_id} if version_id else {}] *)
Definition version_params (version_id : option string) : list (string * string) :=
  match version_id with
  | Some v => if truthy version_id then [("versionId", v)] else []
  | None => []
  end.

Definition list_projects : M (list Project.t) :=
  response <- client_get "/api/v0/projects" [] ;;
  data <- lift (_handle_response response) ;;
  lift (rbind (py_iter data) (rmap Project.init)).

Definition get_about (project_name : string) : M About.t :=
  response <- client_get ("/api/v0/projects/" ++ project_name ++ "/about") [] ;;
  data <- lift (_handle_response response) ;;
  lift (About.init data).

Definition list_packages (project_name : string) : M (list Package.t) :=
  response <- client_get ("/api/v0/projects/" ++ project_name ++ "/packages") [] ;;
  data <- lift (_handle_response response) ;;
  lift (rbind (py_iter data) (rmap Package.init)).

Definition get_package (project_name package_name : string)
    (version_id : option string) : M Package.t :=
  let params := version_params version_id in
  response <- client_get ("/api/v0/projects/" ++ project_name ++ "/packages/"
                            ++ package_name) params ;;
  data <- lift (_handle_response response) ;;
  lift (Package.init data).

(** The loop stamps every item in place before any of them is decoded. *)
Definition list_models (project_name package_name : string)
    (version_id : option string) : M (list Model.t) :=
  let params := version_params version_id in
  response <- client_get ("/api/v0/projects/" ++ project_name ++ "/packages/"
                            ++ package_name ++ "/models") params ;;
  data <- lift (_handle_response response) ;;
  lift (rbind (py_iter data) (fun items =>
        rbind (rmap (py_setitem "packageName" (JStr package_name)) items)
              (rmap Model.init))).

Definition get_model (project_name package_name model_name : string) : M Model.t :=
  response <- client_get ("/api/v0/projects/" ++ project_name ++ "/packages/"
                            ++ package_name ++ "/models/" ++ model_name) [] ;;
  data <- lift (_handle_response response) ;;
  lift (rbind (py_pop "modelPath" data) (fun '(v, data) =>
        rbind (py_setitem "path" v data) (fun data =>
        rbind (py_setitem "packageName" (JStr package_name) data) Model.init))).

(** [{k: v for k, v in request_params.items() if v is not None}] *)
Fixpoint drop_None (items : list (string * option string)) : list (string * string) :=
  match items with
  | [] => []
  | (k, Some v) :: rest => (k, v) :: drop_None rest
  | (_, None) :: rest => drop_None rest
  end.

Definition request_params_of (params : QueryParams) : list (string * option string) :=
  [("versionId", version_id params);
   ("query", query params);
   ("sourceName", source_name params);
   ("queryName", query_name params)].

(** The two checks at the head of [execute_query]. *)
Definition validate_query_params (params : QueryParams) : Result unit :=
  if truthy (query params) && truthy (query_name params) then
    Raise (ValueError "Cannot specify both query and query_name parameters")
  else if truthy (query_name params) && negb (truthy (source_name params)) then
    Raise (ValueError "source_name is required when query_name is specified")
  else Return tt.

(** The [except httpx.HTTPStatusError] clause of [execute_query]. *)
Definition on_HTTPStatusError {A} (e : Exception) : option (M A) :=
  match e with
  | HTTPStatusError status =>
      Some (if status =? 400 then
              raise (APIError 400 (Text "Bad request - invalid query parameters"))
            else if status =? 401 then
              raise (APIError 401 (Text "Unauthorized - authentication required"))
            else if status =? 404 then
              raise (APIError 404 (Text "Not found - project, package, or model not found"))
            else if status =? 500 then
              raise (APIError 500 (Text "Internal server error"))
            else if status =? 501 then
              raise (APIError 501 (Text "Not implemented"))
            else raise e)
  | _ => None
  end.

Definition execute_query (params : QueryParams) : M QueryResult.t :=
  _ <- lift (validate_query_params params) ;;
  let request_params := request_params_of params in
  let request_params := drop_None request_params in
  try_except
    (response <- client_get ("/api/v0/projects/" ++ project_name params
                               ++ "/packages/" ++ package_name params
                               ++ "/queryResults/" ++ path params) request_params ;;
     data <- lift (_handle_response response) ;;
     lift (QueryResult.init data))
    on_HTTPStatusError.

Definition list_databases {sc : Scalars} (project_name package_name : string)
    (version_id : option string) : M (list Database.t) :=
  let params := version_params version_id in
  response <- client_get ("/api/v0/projects/" ++ project_name ++ "/packages/"
                            ++ package_name ++ "/databases") params ;;
  data <- lift (_handle_response response) ;;
  lift (rbind (py_iter data) (rmap Database.init)).

Definition list_schedules {sc : Scalars} (project_name package_name : string)
    (version_id : option string) : M (list Schedule.t) :=
  let params := version_params version_id in
  response <- client_get ("/api/v0/projects/" ++ project_name ++ "/packages/"
                            ++ package_name ++ "/schedules") params ;;
  data <- lift (_handle_response response) ;;
  lift (rbind (py_iter data) (rmap Schedule.init)).

(** [close]: the call is recorded, then the HTTP client is closed. *)
Definition close : M unit :=
  fun self =>
    let c := client self in
    let c := mkHttpxClient (hx_base_url c) (hx_headers c) (hx_state c) (transport c)
                           (trace c ++ [EvClose])%list in
    (Return tt, mkMalloyAPIClient (base_url self) (api_key self) (httpx_close c)).

Definition __enter__ : M unit := ret tt.

(** [__exit__] ignores how the block ended, closes, and returns None. *)
Definition __exit__ (exc : option Exception) : M unit := close.

(** [with client: body]: [__exit__] runs however the body ends; it returns
    None, so an exception of the body is raised again after it. *)
Definition with_ {A} (body : M A) : M A :=
  fun self =>
    let (_, self0) := __enter__ self in
    match body self0 with
    | (Return a, self1) =>
        match __exit__ None self1 with
        | (Return _, self2) => (Return a, self2)
        | (Raise e, self2) => (Raise e, self2)
        end
    | (Raise e, self1) =>
        match __exit__ (Some e) self1 with
        | (Return _, self2) => (Raise e, self2)
        | (Raise e', self2) => (Raise e', self2)
        end
    end.

(** ** The nine operations under one type *)

Inductive Operation : Type :=
| ListProjects
| GetAbout (project_name : string)
| ListPackages (project_name : string)
| GetPackage (project_name package_name : string) (version_id : option string)
| ListModels (project_name package_name : string) (version_id : option string)
| GetModel (project_name package_name model_name : string)
| ExecuteQuery (params : QueryParams)
| ListDatabases (project_name package_name : string) (version_id : option string)
| ListSchedules (project_name package_name : string) (version_id : option string).

Inductive Output : Type :=
| Projects (l : list Project.t)
| AboutInfo (a : About.t)
| Packages (l : list Package.t)
| PackageInfo (p : Package.t)
| Models (l : list Model.t)
| ModelInfo (m : Model.t)
| QueryOutput (q : QueryResult.t)
| Databases (l : list Database.t)
| Schedules (l : list Schedule.t).

Definition fmap {A B} (f : A -> B) (m : M A) : M B := a <- m ;; ret (f a).

Definition call {sc : Scalars} (op : Operation) : M Output :=
  match op with
  | ListProjects => fmap Projects list_projects
  | GetAbout p => fmap AboutInfo (get_about p)
  | ListPackages p => fmap Packages (list_packages p)
  | GetPackage p k v => fmap PackageInfo (get_package p k v)
  | ListModels p k v => fmap Models (list_models p k v)
  | GetModel p k m => fmap ModelInfo (get_model p k m)
  | ExecuteQuery params => fmap QueryOutput (execute_query params)
  | ListDatabases p k v => fmap Databases (list_databases p k v)
  | ListSchedules p k v => fmap Schedules (list_schedules p k v)
  end.

(** Whether the caller's arguments get past the checks made before a
    request is built: only [execute_query] has any. *)
Definition accepted (op : Operation) : bool :=
  match op with
  | ExecuteQuery params =>
      match validate_query_params params with Return _ => true | Raise _ => false end
  | _ => true
  end.

(** ** Vocabulary of the statements and concrete inputs *)

Definition open_ (self : MalloyAPIClient) : Prop := is_closed (client self) = false.

(** The client after a request was put on the wire. *)
Definition after_request (self : MalloyAPIClient) (req : Request) : MalloyAPIClient :=
  mkMalloyAPIClient (base_url self) (api_key self)
    (mkHttpxClient (hx_base_url (client self)) (hx_headers (client self)) OPENED
       (transport (client self)) (trace (client self) ++ [EvRequest req])%list).

Definition request_for (self : MalloyAPIClient) (path : string)
    (ps : list (string * string)) : Request :=
  mkRequest path ps (hx_headers (client self)).

Definition both_set : QueryParams :=
  mkQueryParams "home" "faa" "flights.malloy"
    (Some "test query") None (Some "test_query") None.

Definition offline : Request -> Reply := fun _ => Fail (TransportError "ConnectError").

Definition name_without_source : QueryParams :=
  mkQueryParams "home" "faa" "flights.malloy" None (Some "") (Some "test_query") None.

(** The claim on the parameters of [execute_query] as the specification
    words it: a key is sent exactly when its field is set and non-empty. *)
Definition forwards_nonempty_subset (qp : QueryParams) (req : Request) : Prop :=
  forall k v, In (k, v) (params req)
              <-> In (k, Some v) (request_params_of qp) /\ v <> "".

Definition localhost (net : Request -> Reply) : MalloyAPIClient :=
  MalloyAPIClient_init net "http://localhost:4000" None.

Definition empty_version : QueryParams :=
  mkQueryParams "home" "faa" "flights.malloy" None None None (Some "").

Definition named_query : QueryParams :=
  mkQueryParams "home" "faa" "flights.malloy"
    None (Some "flights") (Some "top_carriers") None.

Definition query_path (params : QueryParams) : string :=
  "/api/v0/projects/" ++ project_name params ++ "/packages/" ++ package_name params
    ++ "/queryResults/" ++ path params.

(** A server that answers every request with the same response. *)
Definition always (response : Response) : Request -> Reply :=
  fun _ => Respond response.

Definition not_found : Response :=
  mkResponse 404
    (Some (JObj [("code", JStr "NOT_FOUND"); ("message", JStr "no such package")])).

Definition bad_gateway_html : Response := mkResponse 502 None.

Definition error_without_message : Response :=
  mkResponse 500 (Some (JObj [("code", JStr "INTERNAL")])).

Definition error_array : Response := mkResponse 500 (Some (JArr [])).

(** A pair of validators to run the examples with. It accepts less than
    the validators of pydantic do (no numeric string, no float for an
    [int] field) and gives the same value on what it accepts: a JSON
    integer for an [int] field; for a [float] field a JSON float, or a
    JSON integer that rounds to a finite binary64. *)
Definition json_numbers : Scalars := {|
  int_accepts := fun v => match v with JInt z => Some z | _ => None end;
  float_accepts := fun v => match v with
                            | JFloat f => Some f
                            | JInt z =>
                                match binary_normalize 53 1024 z 0 false with
                                | S754_infinity _ | S754_nan => None
                                | f => Some f
                                end
                            | _ => None
                            end
|}.

Definition is_invalid {A} (r : Validated A) : bool :=
  match r with Invalid _ => true | Valid _ => false end.

Definition package_without_description : Response :=
  mkResponse 200 (Some (JObj [("name", JStr "faa")])).

(** A model answered without its path, under [modelPath] or any other
    key. *)
Definition model_without_modelPath : Response :=
  mkResponse 200 (Some (JObj [("type", JStr "source")])).

Definition model_a_b : Response :=
  mkResponse 200
    (Some (JObj [("modelPath", JStr "a/b.malloy"); ("type", JStr "source")])).

Definition two_models : Response :=
  mkResponse 200
    (Some (JArr [JObj [("path", JStr "flights.malloy"); ("type", JStr "source")];
                 JObj [("packageName", JStr "other"); ("path", JStr "intro.malloynb");
                       ("type", JStr "notebook")]])).


(** A connection declared as postgres whose only payload is a Trino one. *)
Definition postgres_with_trino (port : JSON) : JSON :=
  JObj [("name", JStr "warehouse");
        ("type", JStr "postgres");
        ("trinoConnection",
         JObj [("server", JStr "trino.example"); ("port", port);
               ("catalog", JStr "hive"); ("schema", JStr "default");
               ("user", JStr "analyst"); ("password", JStr "secret")])].

Definition version_ops (project_name package_name : string) (v : option string)
    : list Operation :=
  [GetPackage project_name package_name v;
   ListModels project_name package_name v;
   ListDatabases project_name package_name v;
   ListSchedules project_name package_name v].


(** ** Sequences of calls on one client *)

(** What a caller can do with a client: run an operation or close it. *)
Inductive Method : Type :=
| Call (op : Operation)
| Close.

(** The client object after a method, whatever the method returned or
    raised. *)
Definition step {sc : Scalars} (m : Method) (self : MalloyAPIClient) : MalloyAPIClient :=
  match m with
  | Call op => snd (call op self)
  | Close => snd (close self)
  end.

Definition run {sc : Scalars} (ms : list Method) (self : MalloyAPIClient)
    : MalloyAPIClient :=
  fold_left (fun s m => step m s) ms self.

(** The default headers [__init__] gives the HTTP client. *)
Definition auth_headers (key : option string) : list (string * string) :=
  match key with
  | Some k => if String.eqb k "" then [] else [("Authorization", "Bearer " ++ k)]
  | None => []
  end.

Fixpoint slashes (n : nat) : string :=
  match n with
  | O => ""
  | S n => String "/" (slashes n)
  end.

Fixpoint ends_with_slash (s : string) : bool :=
  match s with
  | EmptyString => false
  | String c EmptyString => Ascii.eqb c "/"
  | String _ rest => ends_with_slash rest
  end.

Definition closed_message : string :=
  "Cannot send a request, as the client has been closed.".

(** What holds of every client reached from [__init__]. *)
Definition sent_as_configured (base : string) (key : option string) (req : Request) : Prop :=
  headers req = auth_headers key.

Definition well_formed (base : string) (key : option string) (self : MalloyAPIClient) : Prop :=
  hx_headers (client self) = auth_headers key
  /\ hx_base_url (client self) = rstrip_slash base
  /\ Forall (sent_as_configured base key) (requests (trace (client self)))
  /\ count_release (trace (client self)) = (if is_closed (client self) then 1 else 0)%nat.

(** ** The part of each operation that follows [_handle_response] *)

Definition rfmap {A B} (f : A -> B) (r : Result A) : Result B :=
  rbind r (fun a => Return (f a)).

(** What each operation does with the data [_handle_response] returned. *)
Definition decoder {sc : Scalars} (op : Operation) (data : JSON) : Result Output :=
  match op with
  | ListProjects => rfmap Projects (rbind (py_iter data) (rmap Project.init))
  | GetAbout _ => rfmap AboutInfo (About.init data)
  | ListPackages _ => rfmap Packages (rbind (py_iter data) (rmap Package.init))
  | GetPackage _ _ _ => rfmap PackageInfo (Package.init data)
  | ListModels _ package_name _ =>
      rfmap Models
        (rbind (py_iter data) (fun items =>
         rbind (rmap (py_setitem "packageName" (JStr package_name)) items)
               (rmap Model.init)))
  | GetModel _ package_name _ =>
      rfmap ModelInfo
        (rbind (py_pop "modelPath" data) (fun '(v, data) =>
         rbind (py_setitem "path" v data) (fun data =>
         rbind (py_setitem "packageName" (JStr package_name) data) Model.init)))
  | ExecuteQuery _ => rfmap QueryOutput (QueryResult.init data)
  | ListDatabases _ _ _ => rfmap Databases (rbind (py_iter data) (rmap Database.init))
  | ListSchedules _ _ _ => rfmap Schedules (rbind (py_iter data) (rmap Schedule.init))
  end.

(** The exceptions decoding a body can end in. *)
Definition is_decode_error (e : Exception) : bool :=
  match e with
  | TypeError | AttributeError | KeyError _ | PydanticValidationError _ => true
  | _ => false
  end.

Definition only_raises {A} (allowed : Exception -> bool) (r : Result A) : Prop :=
  match r with
  | Return _ => True
  | Raise e => allowed e = true
  end.

Definition is_HTTPStatusError (e : Exception) : bool :=
  match e with HTTPStatusError _ => true | _ => false end.

Definition is_ExecuteQuery (op : Operation) : bool :=
  match op with ExecuteQuery _ => true | _ => false end.

Definition is_object (v : JSON) : bool :=
  match v with JObj _ => true | _ => false end.

(** An item of the models collection once [packageName] is written into
    it. *)
Definition stamp (package_name : string) (item : JSON) : JSON :=
  match item with
  | JObj d => JObj (dict_set "packageName" (JStr package_name) d)
  | other => other
  end.

(** The value read for a field that may be given under its alias or its
    own name: the alias is looked at first. *)
Definition wire_value (alias name : string) (d : Dict) : option JSON :=
  match dict_get alias d with
  | Some x => Some x
  | None => dict_get name d
  end.

Definition absent_or_null (k : string) (d : Dict) : Prop :=
  dict_get k d = None \/ dict_get k d = Some JNull.

Definition payload_keys : list string :=
  ["postgresConnection"; "bigqueryConnection"; "snowflakeConnection"; "trinoConnection"].

(** ** models.py, continued: the alias generator and the compiled model *)

Definition is_upper (c : ascii) : bool :=
  (65 <=? nat_of_ascii c)%nat && (nat_of_ascii c <=? 90)%nat.

Definition is_lower (c : ascii) : bool :=
  (97 <=? nat_of_ascii c)%nat && (nat_of_ascii c <=? 122)%nat.

Definition upper (c : ascii) : ascii :=
  if is_lower c then ascii_of_nat (nat_of_ascii c - 32) else c.

Definition lower (c : ascii) : ascii :=
  if is_upper c then ascii_of_nat (nat_of_ascii c + 32) else c.

Fixpoint map_string (f : ascii -> ascii) (s : string) : string :=
  match s with
  | EmptyString => EmptyString
  | String c rest => String (f c) (map_string f rest)
  end.

(** [word.capitalize()] on ASCII text: the first character in upper
    case, the others in lower case. *)
Definition capitalize (word : string) : string :=
  match word with
  | EmptyString => EmptyString
  | String c rest => String (upper c) (map_string lower rest)
  end.

(** [x.split("_")]: the pieces between underscores, at least one. *)
Fixpoint split_underscore (x : string) : list string :=
  match x with
  | EmptyString => [EmptyString]
  | String c rest =>
      if Ascii.eqb c "_" then EmptyString :: split_underscore rest
      else match split_underscore rest with
           | word :: words => String c word :: words
           | [] => [String c EmptyString]
           end
  end.

(** The [alias_generator] of CompiledModel and QueryResult: the words
    after the first are capitalized and all are joined. *)
Definition alias_generator (x : string) : string :=
  match split_underscore x with
  | [] => EmptyString
  | word :: words => String.concat "" (word :: map capitalize words)
  end.

Fixpoint has_underscore (s : string) : bool :=
  match s with
  | EmptyString => false
  | String c rest => Ascii.eqb c "_" || has_underscore rest
  end.

(** The fields of CompiledModel and QueryResult that declare an alias,
    each with the alias declared. *)
Definition declared_aliases : list (string * string) :=
  [("package_name", "packageName");
   ("malloy_version", "malloyVersion");
   ("data_styles", "dataStyles");
   ("model_def", "modelDef");
   ("notebook_cells", "notebookCells");
   ("query_result", "queryResult")].

(** [Any]: every value passes as it is. *)
Definition any_validator : Validator JSON := fun _ v => Valid v.

Definition index (i : nat) : string := NilEmpty.string_of_uint (Nat.to_uint i).

Fixpoint list_items {A} (v : Validator A) (loc : list string) (i : nat)
    (items : list JSON) : Validated (list A) :=
  match items with
  | [] => Valid []
  | x :: rest =>
      Valid (@cons A) <*> v (loc ++ [index i])%list x <*> list_items v loc (S i) rest
  end.

(** [list[T]]: a list whose items are validated in turn. *)
Definition list_of {A} (v : Validator A) : Validator (list A) :=
  fun loc x => match x with
               | JArr items => list_items v loc 0 items
               | _ => fail_at loc "list_type"
               end.

(** A field with a default: the default when the key is absent. *)
Definition defaulted {A} (alias : string) (default : A) (v : Validator A)
    (loc : list string) (d : Dict) : Validated A :=
  match dict_get alias d with
  | Some x => v (loc ++ [alias])%list x
  | None => Valid default
  end.

Module View.
Record t : Type := Build { name : string; annotations : list string }.
Definition fields (loc : list string) (d : Dict) : Validated t :=
  Valid Build <*> required "name" str_validator loc d
              <*> defaulted "annotations" [] (list_of str_validator) loc d.
Definition init : JSON -> Result t := model_init "View" fields.
End View.

Module Source.
Record t : Type := Build {
  name : string;
  annotations : list string;
  views : list View.t
}.
Definition fields (loc : list string) (d : Dict) : Validated t :=
  Valid Build <*> required "name" str_validator loc d
              <*> defaulted "annotations" [] (list_of str_validator) loc d
              <*> defaulted "views" [] (list_of (nested View.fields)) loc d.
Definition init : JSON -> Result t := model_init "Source" fields.
End Source.

Module Query.
Record t : Type := Build { name : string; annotations : list string }.
Definition fields (loc : list string) (d : Dict) : Validated t :=
  Valid Build <*> required "name" str_validator loc d
              <*> defaulted "annotations" [] (list_of str_validator) loc d.
Definition init : JSON -> Result t := model_init "Query" fields.
End Query.

Module NotebookCell.
Record t : Type := Build {
  type : CellType;
  text : string;
  query_name : option string;
  query_result : option string
}.
Definition fields (loc : list string) (d : Dict) : Validated t :=
  Valid Build <*> required "type" CellType_validator loc d
              <*> required "text" str_validator loc d
              <*> optional "queryName" str_validator loc d
              <*> optional "queryResult" str_validator loc d.
Definition init : JSON -> Result t := model_init "NotebookCell" fields.
End NotebookCell.

Module CompiledModel.
Record t : Type := Build {
  package_name : string;
  path : string;
  type : ModelType;
  malloy_version : string;
  data_styles : JSON;
  model_def : JSON;
  sources : list Source.t;
  queries : list Query.t;
  notebook_cells : list NotebookCell.t
}.
(** The fields of Model come first; [populate_by_name=True] lets every
    field be given under its alias or its name, and a field without a
    declared alias gets the generated one. *)
Definition fields (loc : list string) (d : Dict) : Validated t :=
  Valid Build
    <*> required_by_name "packageName" "package_name" str_validator loc d
    <*> required_by_name (alias_generator "path") "path" str_validator loc d
    <*> required_by_name (alias_generator "type") "type" ModelType_validator loc d
    <*> required_by_name "malloyVersion" "malloy_version" str_validator loc d
    <*> required_by_name "dataStyles" "data_styles" any_validator loc d
    <*> required_by_name "modelDef" "model_def" any_validator loc d
    <*> required_by_name (alias_generator "sources") "sources"
          (list_of (nested Source.fields)) loc d
    <*> required_by_name (alias_generator "queries") "queries"
          (list_of (nested Query.fields)) loc d
    <*> required_by_name "notebookCells" "notebook_cells"
          (list_of (nested NotebookCell.fields)) loc d.
Definition init : JSON -> Result t := model_init "CompiledModel" fields.
(** The Model a compiled model is. *)
Definition base (c : t) : Model.t := Model.Build (package_name c) (path c) (type c).
End CompiledModel.



Definition query_keys : list string := ["versionId"; "query"; "sourceName"; "queryName"].

(** * Properties *)

(** ** Dicts *)

Lemma dict_get_set (k k' : string) (v : JSON) (d : Dict) :
  dict_get k (dict_set k' v d) = if String.eqb k k' then Some v else dict_get k d.
Proof.
  induction d as [|[k0 v0] d IH]; simpl.
  - destruct (String.eqb_spec k k'); reflexivity.
  - destruct (String.eqb_spec k' k0) as [->|Hk'].
    + simpl. destruct (String.eqb_spec k k0); reflexivity.
    + simpl. rewrite IH.
      destruct (String.eqb_spec k k0) as [->|]; [|reflexivity].
      destruct (String.eqb_spec k0 k'); congruence.
Qed.

Lemma dict_pop_get (k : string) (d d' : Dict) (v : JSON) :
  dict_pop k d = Some (v, d') ->
  dict_get k d = Some v /\
  forall k', k' <> k -> dict_get k' d' = dict_get k' d.
Proof.
  revert d'; induction d as [|[k0 v0] d IH]; simpl; intros d' H; [discriminate|].
  destruct (String.eqb_spec k k0) as [->|Hk].
  - inversion H; subst; split; [reflexivity|].
    intros k' Hk'. destruct (String.eqb_spec k' k0); congruence.
  - destruct (dict_pop k d) as [[x rest]|] eqn:E; [|discriminate].
    inversion H; subst. destruct (IH rest eq_refl) as [Hg Ho].
    split; [exact Hg|]. intros k' Hk'. simpl.
    destruct (String.eqb k' k0); [reflexivity|]. apply Ho, Hk'.
Qed.

Lemma dict_pop_None (k : string) (d : Dict) :
  dict_pop k d = None <-> dict_get k d = None.
Proof.
  induction d as [|[k0 v0] d IH]; simpl; [tauto|].
  destruct (String.eqb k k0); [split; discriminate|].
  destruct (dict_pop k d) as [[x rest]|].
  - split; [discriminate|]. intros H. apply IH in H. discriminate.
  - split; intros _; [apply IH|]; reflexivity.
Qed.

(** ** Request parameters *)

Lemma truthy_Some (o : option string) :
  truthy o = true <-> exists s, o = Some s /\ s <> "".
Proof.
  destruct o as [s|]; simpl.
  - destruct (String.eqb_spec s ""); simpl; split.
    + discriminate.
    + intros (s' & [= <-] & Hs). contradiction.
    + intros _. exists s. split; [reflexivity | assumption].
    + reflexivity.
  - split; [discriminate | intros (s & H & _); discriminate].
Qed.

Lemma drop_None_In (items : list (string * option string)) (k v : string) :
  In (k, v) (drop_None items) <-> In (k, Some v) items.
Proof.
  induction items as [|[k0 [v0|]] items IH]; simpl.
  - tauto.
  - rewrite IH. split; (intros [H|H]; [left; congruence | right; exact H]).
  - rewrite IH. split; [intros H; right; exact H | intros [H|H]; [discriminate | exact H]].
Qed.

Lemma version_params_spec (version_id : option string) :
  version_params version_id
  = match version_id with
    | Some s => if String.eqb s "" then [] else [("versionId", s)]
    | None => []
    end.
Proof.
  destruct version_id as [s|]; simpl; [|reflexivity].
  destruct (String.eqb s ""); reflexivity.
Qed.

(** ** Running a method *)

Lemma client_get_open (self : MalloyAPIClient) (path : string)
    (ps : list (string * string)) :
  open_ self ->
  client_get path ps self
  = (match transport (client self) (request_for self path ps) with
     | Respond response => Return response
     | Fail e => Raise e
     end, after_request self (request_for self path ps)).
Proof.
  unfold open_, is_closed, client_get, httpx_get, after_request, request_for.
  destruct (hx_state (client self)); intros H; try discriminate; reflexivity.
Qed.

Lemma client_get_closed (self : MalloyAPIClient) (path : string)
    (ps : list (string * string)) :
  is_closed (client self) = true ->
  snd (client_get path ps self) = self.
Proof.
  unfold is_closed, client_get, httpx_get.
  destruct self as [b k c]; simpl.
  destruct (hx_state c); intros H; try discriminate; reflexivity.
Qed.

(** A request followed by pure decoding: the result is decided by the
    reply, the client only records the request. *)
Lemma request_then_decode {A} (self : MalloyAPIClient) (path : string)
    (ps : list (string * string)) (k : Response -> Result A) :
  open_ self ->
  (response <- client_get path ps ;; lift (k response)) self
  = (match transport (client self) (request_for self path ps) with
     | Respond response => k response
     | Fail e => Raise e
     end, after_request self (request_for self path ps)).
Proof.
  intros H. unfold bind. rewrite (client_get_open _ _ _ H).
  destruct (transport (client self) (request_for self path ps)); reflexivity.
Qed.

Lemma bind_lift_lift {A B C} (m : M A) (f : A -> Result B) (g : B -> Result C)
    (self : MalloyAPIClient) :
  (a <- m ;; b <- lift (f a) ;; lift (g b)) self
  = (a <- m ;; lift (rbind (f a) g)) self.
Proof.
  unfold bind, lift. destruct (m self) as [[a|e] s]; [|reflexivity].
  destruct (f a); reflexivity.
Qed.

(** ** C1, C2: the checks of [execute_query] *)

(** C1. Whenever [query] and [query_name] are both non-empty, whatever the
    other fields, [execute_query] raises a ValueError (which is not an
    APIError) and leaves the client as it was: nothing has been sent. *)
Theorem execute_query_rejects_query_with_query_name
    (params : QueryParams) (self : MalloyAPIClient) :
  truthy (query params) = true ->
  truthy (query_name params) = true ->
  exists e,
    execute_query params self = (Raise e, self)
    /\ e = ValueError "Cannot specify both query and query_name parameters"
    /\ is_ValueError e = true /\ is_APIError e = false
    /\ requests (trace (client (snd (execute_query params self))))
       = requests (trace (client self)).
Proof.
  intros Hq Hn. eexists.
  assert (E : execute_query params self
              = (Raise (ValueError "Cannot specify both query and query_name parameters"),
                 self)).
  { unfold execute_query, bind, lift, validate_query_params.
    rewrite Hq, Hn. reflexivity. }
  rewrite E. repeat split.
Qed.

Lemma execute_query_rejects_query_with_query_name_witness :
  exists e,
    execute_query both_set (MalloyAPIClient_init offline "http://localhost:4000" None)
    = (Raise e, MalloyAPIClient_init offline "http://localhost:4000" None)
    /\ e = ValueError "Cannot specify both query and query_name parameters"
    /\ is_ValueError e = true /\ is_APIError e = false
    /\ requests (trace (client (snd (execute_query both_set
         (MalloyAPIClient_init offline "http://localhost:4000" None)))))
       = requests (trace (client
           (MalloyAPIClient_init offline "http://localhost:4000" None))).
Proof.
  apply (execute_query_rejects_query_with_query_name both_set); reflexivity.
Defined.

(** C2. Whenever [query_name] is non-empty and [source_name] is empty or
    absent, [execute_query] raises a ValueError and leaves the client as
    it was: nothing has been sent. *)
Theorem execute_query_rejects_query_name_without_source
    (params : QueryParams) (self : MalloyAPIClient) :
  truthy (query_name params) = true ->
  truthy (source_name params) = false ->
  exists e,
    execute_query params self = (Raise e, self)
    /\ is_ValueError e = true /\ is_APIError e = false
    /\ (truthy (query params) = false ->
        e = ValueError "source_name is required when query_name is specified")
    /\ requests (trace (client (snd (execute_query params self))))
       = requests (trace (client self)).
Proof.
  intros Hn Hs.
  unfold execute_query, bind, lift, validate_query_params.
  rewrite Hn, Hs. destruct (truthy (query params)); simpl;
    eexists; repeat split; congruence.
Qed.

Lemma execute_query_rejects_query_name_without_source_witness :
  exists e,
    execute_query name_without_source
      (MalloyAPIClient_init offline "http://localhost:4000" None)
    = (Raise e, MalloyAPIClient_init offline "http://localhost:4000" None)
    /\ is_ValueError e = true /\ is_APIError e = false
    /\ (truthy (query name_without_source) = false ->
        e = ValueError "source_name is required when query_name is specified")
    /\ requests (trace (client (snd (execute_query name_without_source
         (MalloyAPIClient_init offline "http://localhost:4000" None)))))
       = requests (trace (client
           (MalloyAPIClient_init offline "http://localhost:4000" None))).
Proof.
  apply (execute_query_rejects_query_name_without_source name_without_source);
    reflexivity.
Defined.

(** ** C3: the parameters [execute_query] sends *)

Lemma execute_query_sends (params : QueryParams) (self : MalloyAPIClient) :
  validate_query_params params = Return tt ->
  open_ self ->
  snd (execute_query params self)
  = after_request self
      (request_for self (query_path params) (drop_None (request_params_of params))).
Proof.
  intros Hv Ho. unfold execute_query, try_except.
  unfold bind at 1. unfold lift at 1. rewrite Hv.
  rewrite bind_lift_lift, (request_then_decode _ _ _ _ Ho). fold (query_path params).
  destruct (transport (client self) _) as [response|e]; simpl.
  - destruct (rbind (_handle_response response) QueryResult.init) as [q|e];
      [reflexivity|].
    destruct e; simpl; try reflexivity.
    repeat match goal with |- context [if ?b then _ else _] => destruct b end;
      reflexivity.
  - destruct e; simpl; try reflexivity.
    repeat match goal with |- context [if ?b then _ else _] => destruct b end;
      reflexivity.
Qed.

(** C3, as stated, fails: with [version_id=""] and nothing else set the
    checks pass and the one request sent carries [versionId] with the
    empty string. *)
Lemma execute_query_forwards_empty_string :
  validate_query_params empty_version = Return tt
  /\ exists req,
       requests (trace (client (snd (execute_query empty_version (localhost offline)))))
       = [req]
       /\ In ("versionId", "") (params req)
       /\ ~ forwards_nonempty_subset empty_version req.
Proof.
  split; [reflexivity|]. eexists. split; [reflexivity|]. split; [left; reflexivity|].
  intros H. destruct (H "versionId" "") as [H1 _].
  destruct H1 as [_ H1]; [left; reflexivity|]. apply H1; reflexivity.
Qed.

(** C3, amended. For every [QueryParams] that passes the two checks,
    [execute_query] on an open client sends exactly one request, and its
    parameters are exactly those of versionId, query, sourceName and
    queryName whose field is not None, each with the value of its own
    field and in that order: an absent field is never sent, an empty
    string that was supplied is. *)
Theorem execute_query_forwards_fields_not_None
    (qp : QueryParams) (self : MalloyAPIClient) :
  validate_query_params qp = Return tt ->
  open_ self ->
  exists req,
    trace (client (snd (execute_query qp self)))
    = (trace (client self) ++ [EvRequest req])%list
    /\ params req
       = ((match version_id qp with Some v => [("versionId", v)] | None => [] end)
          ++ (match query qp with Some v => [("query", v)] | None => [] end)
          ++ (match source_name qp with Some v => [("sourceName", v)] | None => [] end)
          ++ (match query_name qp with Some v => [("queryName", v)] | None => [] end))%list
    /\ (forall v, In ("versionId", v) (params req) <-> version_id qp = Some v)
    /\ (forall v, In ("query", v) (params req) <-> query qp = Some v)
    /\ (forall v, In ("sourceName", v) (params req) <-> source_name qp = Some v)
    /\ (forall v, In ("queryName", v) (params req) <-> query_name qp = Some v)
    /\ (forall k v, In (k, v) (params req) -> In k query_keys).
Proof.
  intros Hv Ho. rewrite (execute_query_sends _ _ Hv Ho).
  eexists. split; [reflexivity|].
  unfold after_request, request_for, params, request_params_of, query_keys.
  destruct (version_id qp), (query qp), (source_name qp), (query_name qp); simpl;
    (split; [reflexivity|]);
    repeat split; intros;
    repeat match goal with
           | H : _ \/ _ |- _ => destruct H
           | H : (_, _) = (_, _) |- _ => inversion H; clear H; subst
           | H : Some _ = Some _ |- _ => inversion H; clear H; subst
           | H : False |- _ => destruct H
           end;
    try discriminate; auto 8.
Qed.

Lemma execute_query_forwards_fields_not_None_witness :
  exists req,
    trace (client (snd (execute_query named_query (localhost offline))))
    = (trace (client (localhost offline)) ++ [EvRequest req])%list
    /\ params req
       = ((match version_id named_query with
           | Some v => [("versionId", v)] | None => [] end)
          ++ (match query named_query with Some v => [("query", v)] | None => [] end)
          ++ (match source_name named_query with
              | Some v => [("sourceName", v)] | None => [] end)
          ++ (match query_name named_query with
              | Some v => [("queryName", v)] | None => [] end))%list
    /\ (forall v, In ("versionId", v) (params req) <-> version_id named_query = Some v)
    /\ (forall v, In ("query", v) (params req) <-> query named_query = Some v)
    /\ (forall v, In ("sourceName", v) (params req) <-> source_name named_query = Some v)
    /\ (forall v, In ("queryName", v) (params req) <-> query_name named_query = Some v)
    /\ (forall k v, In (k, v) (params req) -> In k query_keys).
Proof.
  apply (execute_query_forwards_fields_not_None named_query (localhost offline));
    reflexivity.
Defined.

Lemma execute_query_parameters_example :
  requests (trace (client (snd (execute_query named_query (localhost offline)))))
  = [mkRequest "/api/v0/projects/home/packages/faa/queryResults/flights.malloy"
       [("sourceName", "flights"); ("queryName", "top_carriers")] []].
Proof. reflexivity. Qed.

(** ** C4, C5: responses with a status of 400 and above *)

Lemma accepted_validates (qp : QueryParams) :
  accepted (ExecuteQuery qp) = true -> validate_query_params qp = Return tt.
Proof.
  simpl. destruct (validate_query_params qp) as [[]|]; [reflexivity | discriminate].
Qed.

Ltac run_request Ho Ht :=
  unfold bind, lift, ret, try_except;
  rewrite (client_get_open _ _ _ Ho), Ht; simpl.

(** Whatever [_handle_response] raises on the reply is what the operation
    raises, for each of the nine operations. *)
Lemma call_raises {sc : Scalars} (op : Operation) (self : MalloyAPIClient)
    (response : Response) (e : Exception) :
  accepted op = true ->
  open_ self ->
  (forall req, transport (client self) req = Respond response) ->
  _handle_response response = Raise e ->
  (forall status, e <> HTTPStatusError status) ->
  fst (call op self) = Raise e.
Proof.
  intros Ha Ho Ht Hr He.
  destruct op; simpl; unfold fmap;
    [ unfold list_projects | unfold get_about | unfold list_packages
    | unfold get_package | unfold list_models | unfold get_model
    | unfold execute_query | unfold list_databases | unfold list_schedules ];
    try (run_request Ho Ht; rewrite Hr; reflexivity).
  apply accepted_validates in Ha.
  unfold bind at 1. unfold bind at 1. unfold lift at 1. rewrite Ha.
  run_request Ho Ht. rewrite Hr. simpl.
  destruct e; simpl; try reflexivity. exfalso. eapply He; reflexivity.
Qed.

Lemma handle_error_body (response : Response) (body : JSON) (error : Error.t) :
  HTTP_ERROR_STATUS <= status_code response ->
  json_body response = Some body ->
  Error.init body = Return error ->
  _handle_response response
  = Raise (APIError (status_code response) (Text (Error.message error))).
Proof.
  intros Hs Hb He. unfold _handle_response, Response_json.
  apply Z.leb_le in Hs. rewrite Hs, Hb. simpl. rewrite He. reflexivity.
Qed.

(** C4. For each of the nine operations (with arguments that pass the
    caller-side checks, on an open client): when the server answers with a
    status of 400 or more and a body that decodes as an Error record, the
    operation raises APIError with exactly that status code and the
    [message] field of the body. *)
Theorem error_response_raises_APIError {sc : Scalars}
    (op : Operation) (self : MalloyAPIClient)
    (response : Response) (body : JSON) (error : Error.t) :
  accepted op = true ->
  open_ self ->
  (forall req, transport (client self) req = Respond response) ->
  400 <= status_code response ->
  json_body response = Some body ->
  Error.init body = Return error ->
  fst (call op self)
  = Raise (APIError (status_code response) (Text (Error.message error))).
Proof.
  intros Ha Ho Ht Hs Hb He.
  apply (call_raises op self response); auto.
  - apply (handle_error_body response body); assumption.
  - discriminate.
Qed.

Lemma error_response_raises_APIError_witness :
  fst (call (sc := json_numbers) (GetPackage "home" "nope" None)
         (localhost (always not_found)))
  = Raise (APIError 404 (Text "no such package")).
Proof.
  apply (error_response_raises_APIError (sc := json_numbers)
           (GetPackage "home" "nope" None) (localhost (always not_found)) not_found
           (JObj [("code", JStr "NOT_FOUND"); ("message", JStr "no such package")])
           (Error.Build "NOT_FOUND" "no such package"));
    solve [reflexivity | intros; reflexivity | simpl; lia].
Defined.

(** The part of C5 the code does provide: a JSON object that fails the
    validation of Error gives APIError with the status preserved and the
    text of the validation error as message. *)
Lemma invalid_error_object_raises_APIError {sc : Scalars}
    (op : Operation) (self : MalloyAPIClient)
    (response : Response) (d : Dict) (errs : list ErrorDetails) :
  accepted op = true ->
  open_ self ->
  (forall req, transport (client self) req = Respond response) ->
  400 <= status_code response ->
  json_body response = Some (JObj d) ->
  Error.fields [] d = Invalid errs ->
  fst (call op self)
  = Raise (APIError (status_code response) (StrOf (mkValidationError "Error" errs))).
Proof.
  intros Ha Ho Ht Hs Hb He.
  apply (call_raises op self response); auto; [|discriminate].
  unfold _handle_response, Response_json, HTTP_ERROR_STATUS. apply Z.leb_le in Hs.
  rewrite Hs, Hb. simpl. unfold Error.init, model_init. rewrite He. reflexivity.
Qed.

Lemma invalid_error_object_example :
  fst (get_package "home" "faa" None (localhost (always error_without_message)))
  = Raise (APIError 500
      (StrOf (mkValidationError "Error" [mkErrorDetails ["message"] "missing"]))).
Proof. reflexivity. Qed.

(** Any operation, any status of 400 and above: a body that is not JSON
    leaves [response.json()] raising, and nothing catches it. *)
Lemma non_json_error_body_propagates {sc : Scalars}
    (op : Operation) (self : MalloyAPIClient) (response : Response) :
  accepted op = true ->
  open_ self ->
  (forall req, transport (client self) req = Respond response) ->
  400 <= status_code response ->
  json_body response = None ->
  fst (call op self) = Raise JSONDecodeError.
Proof.
  intros Ha Ho Ht Hs Hb.
  apply (call_raises op self response); auto; [|discriminate].
  unfold _handle_response, Response_json, HTTP_ERROR_STATUS. apply Z.leb_le in Hs.
  rewrite Hs, Hb. reflexivity.
Qed.

(** C5 at its failing inputs. A 502 whose body is not JSON makes
    [get_package] raise JSONDecodeError, and a 500 whose body is a JSON
    array makes it raise TypeError: neither is an APIError, and the status
    code is lost. Only validation errors are turned into APIError. *)
Theorem malformed_error_body_escapes_APIError :
  fst (get_package "home" "faa" None (localhost (always bad_gateway_html)))
  = Raise JSONDecodeError
  /\ is_APIError JSONDecodeError = false
  /\ fst (get_package "home" "faa" None (localhost (always error_array)))
     = Raise TypeError
  /\ is_APIError TypeError = false.
Proof. repeat split. Qed.

(** ** C6: bodies of successful responses that miss a field *)

Lemma vap_invalid_l {A B} (f : Validated (A -> B)) (x : Validated A) :
  is_invalid f = true -> is_invalid (f <*> x) = true.
Proof. destruct f, x; simpl; congruence. Qed.

Lemma vap_invalid_r {A B} (f : Validated (A -> B)) (x : Validated A) :
  is_invalid x = true -> is_invalid (f <*> x) = true.
Proof. destruct f, x; simpl; congruence. Qed.

Lemma required_missing {A} (alias : string) (v : Validator A)
    (loc : list string) (d : Dict) :
  dict_get alias d = None -> is_invalid (required alias v loc d) = true.
Proof. unfold required. intros ->. reflexivity. Qed.

Lemma model_init_invalid {A} (name : string)
    (fields : list string -> Dict -> Validated A) (d : Dict) :
  is_invalid (fields [] d) = true ->
  exists e, model_init name fields (JObj d) = Raise (PydanticValidationError e).
Proof.
  unfold model_init. destruct (fields [] d); [discriminate|].
  intros _. eexists. reflexivity.
Qed.

Create HintDb missing.
#[local] Hint Resolve vap_invalid_l vap_invalid_r required_missing : missing.

(** The case the specification gives: a successful response whose Package
    lacks [name] or [description] makes [get_package] raise pydantic's
    ValidationError. *)
Lemma get_package_missing_field (project_name package_name : string)
    (version_id : option string) (self : MalloyAPIClient)
    (response : Response) (d : Dict) :
  open_ self ->
  (forall req, transport (client self) req = Respond response) ->
  status_code response < 400 ->
  json_body response = Some (JObj d) ->
  dict_get "name" d = None \/ dict_get "description" d = None ->
  exists e, fst (get_package project_name package_name version_id self)
            = Raise (PydanticValidationError e).
Proof.
  intros Ho Ht Hs Hb Hm.
  assert (Hi : is_invalid (Package.fields [] d) = true)
    by (unfold Package.fields; destruct Hm; auto with missing).
  destruct (model_init_invalid "Package" Package.fields d Hi) as [e He].
  exists e. unfold get_package. run_request Ho Ht.
  unfold _handle_response, Response_json, HTTP_ERROR_STATUS.
  apply Z.ltb_lt in Hs. rewrite Z.leb_antisym, Hs, Hb. simpl.
  unfold Package.init. simpl in He |- *. rewrite He. reflexivity.
Qed.

Lemma package_without_description_example :
  fst (get_package "home" "faa" None (localhost (always package_without_description)))
  = Raise (PydanticValidationError
      (mkValidationError "Package" [mkErrorDetails ["description"] "missing"])).
Proof. reflexivity. Qed.

(** C6 at its failing input. A successful response to [get_model] whose
    body lacks [modelPath], the wire name of the required field [path],
    does not end in a ValidationError: the rename pops the key before the
    model is validated and raises KeyError. *)
Theorem get_model_without_modelPath_raises_KeyError :
  fst (get_model "home" "faa" "flights.malloy"
         (localhost (always model_without_modelPath)))
  = Raise (KeyError "modelPath")
  /\ is_ValidationError (KeyError "modelPath") = false.
Proof. split; reflexivity. Qed.

(** ** C7: [modelPath] becomes [path], [package_name] is the argument *)

Lemma handle_response_ok (response : Response) :
  status_code response < 400 ->
  _handle_response response = Response_json response.
Proof.
  intros Hs. unfold _handle_response, HTTP_ERROR_STATUS.
  apply Z.ltb_lt in Hs. rewrite Z.leb_antisym, Hs. reflexivity.
Qed.

Lemma rmap_Return_iff {A B} (f : A -> Result B) (l : list A) (ys : list B) :
  rmap f l = Return ys <-> Forall2 (fun x y => f x = Return y) l ys.
Proof.
  revert ys; induction l as [|x l IH]; simpl; intros ys.
  - split; [intros [= <-]; constructor | intros H; inversion H; reflexivity].
  - split.
    + destruct (f x) as [y|] eqn:Ex; simpl; [|discriminate].
      destruct (rmap f l) as [ys'|]; simpl; [|discriminate].
      intros [= <-]. constructor; [exact Ex | apply IH; reflexivity].
    + intros H. inversion H as [|? y ? ys' Hx Hl]; subst.
      rewrite Hx. simpl. apply IH in Hl. rewrite Hl. reflexivity.
Qed.

Ltac run_ok Ho Ht Hs Hb :=
  run_request Ho Ht; rewrite (handle_response_ok _ Hs);
  unfold Response_json; rewrite Hb; simpl.

Lemma rmap_setitem (package_name : string) (items : list JSON) :
  rmap (py_setitem "packageName" (JStr package_name)) items
  = if forallb is_object items then Return (map (stamp package_name) items)
    else Raise TypeError.
Proof.
  induction items as [|x items IH]; simpl; [reflexivity|].
  destruct x; simpl; try reflexivity. rewrite IH.
  destruct (forallb is_object items); reflexivity.
Qed.

Lemma Forall2_map_l {A B C} (g : A -> B) (R : B -> C -> Prop) (l : list A) (ys : list C) :
  Forall2 R (map g l) ys <-> Forall2 (fun x y => R (g x) y) l ys.
Proof.
  revert ys; induction l as [|x l IH]; simpl; intros ys.
  - split; intros H; inversion H; constructor.
  - split; intros H; inversion H; subst; constructor; auto; apply IH; auto.
Qed.




Lemma dict_get_pop (k : string) (d : Dict) (v : JSON) :
  dict_get k d = Some v -> exists d', dict_pop k d = Some (v, d').
Proof.
  intros H. destruct (dict_pop k d) as [[x d']|] eqn:E.
  - destruct (dict_pop_get _ _ _ _ E) as [Hg _]. exists d'. congruence.
  - apply dict_pop_None in E. congruence.
Qed.







Lemma get_model_example :
  fst (get_model "home" "faa" "a/b.malloy" (localhost (always model_a_b)))
  = Return (Model.Build "faa" "a/b.malloy" SOURCE).
Proof. reflexivity. Qed.

Lemma list_models_example :
  fst (list_models "home" "faa" None (localhost (always two_models)))
  = Return [Model.Build "faa" "flights.malloy" SOURCE;
            Model.Build "faa" "intro.malloynb" NOTEBOOK].
Proof. reflexivity. Qed.

(** ** C8: Connection does not relate [type] to the payload *)

(** C8. Decoding does not enforce the tagged union: a wire object whose
    [type] is postgres and whose only populated sub-connection is
    [trinoConnection] is accepted, and the record comes back with that
    type, no postgres payload and the Trino payload as sent (for any port
    value the float validator accepts). *)
Theorem Connection_accepts_type_and_payload_that_disagree {sc : Scalars}
    (port : JSON) (f : PyFloat) :
  float_accepts port = Some f ->
  Connection.init (postgres_with_trino port)
  = Return (Connection.Build "warehouse" POSTGRES None None None
              (Some (TrinoConnection.Build "trino.example" f "hive" "default"
                       "analyst" "secret"))).
Proof.
  intros Hf. unfold Connection.init, model_init, postgres_with_trino.
  unfold Connection.fields, optional, required, nested. simpl.
  unfold TrinoConnection.fields, required, float_validator. simpl.
  rewrite Hf. reflexivity.
Qed.

Lemma Connection_accepts_type_and_payload_that_disagree_witness :
  Connection.init (sc := json_numbers) (postgres_with_trino (JInt 8080))
  = Return (Connection.Build "warehouse" POSTGRES None None None
              (Some (TrinoConnection.Build "trino.example"
                       (binary_normalize 53 1024 8080 0 false) "hive" "default"
                       "analyst" "secret"))).
Proof.
  apply (Connection_accepts_type_and_payload_that_disagree (sc := json_numbers)
           (JInt 8080) (binary_normalize 53 1024 8080 0 false)).
  reflexivity.
Defined.

(** ** C9: [close] and the scoped use of the client *)

Lemma close_returns (self : MalloyAPIClient) : fst (close self) = Return tt.
Proof. reflexivity. Qed.

Lemma close_closes (self : MalloyAPIClient) :
  is_closed (client (snd (close self))) = true.
Proof.
  unfold close, httpx_close, is_closed. simpl.
  destruct (hx_state (client self)) eqn:E; simpl; rewrite ?E; reflexivity.
Qed.

Lemma count_close_app (tr tr' : list Event) :
  count_close (tr ++ tr') = (count_close tr + count_close tr')%nat.
Proof. unfold count_close. rewrite filter_app, length_app. reflexivity. Qed.

Lemma close_counts_once (self : MalloyAPIClient) :
  count_close (trace (client (snd (close self))))
  = S (count_close (trace (client self))).
Proof.
  unfold close, httpx_close. simpl.
  destruct (hx_state (client self)); simpl; rewrite ?count_close_app;
    unfold count_close; simpl; lia.
Qed.

Lemma close_again (self : MalloyAPIClient) :
  hx_state (client self) = CLOSED ->
  snd (close self)
  = mkMalloyAPIClient (base_url self) (api_key self)
      (mkHttpxClient (hx_base_url (client self)) (hx_headers (client self)) CLOSED
         (transport (client self)) (trace (client self) ++ [EvClose])%list).
Proof. intros H. unfold close, httpx_close. simpl. rewrite H. reflexivity. Qed.

(** C9. [close] never raises and leaves the client closed; a second call
    changes nothing but the record of the call itself: same state, same
    base URL, key, headers and transport, and no further release of the
    transport. Leaving a [with] block runs [close] exactly once, whether
    the body returned or raised, gives the body's own result or exception,
    and leaves the client closed. *)
Theorem close_is_idempotent_and_with_closes_once :
  (forall self,
     let once := snd (close self) in
     let twice := snd (close once) in
     fst (close self) = Return tt
     /\ fst (close once) = Return tt
     /\ is_closed (client once) = true
     /\ hx_state (client twice) = hx_state (client once)
     /\ base_url twice = base_url once
     /\ api_key twice = api_key once
     /\ hx_base_url (client twice) = hx_base_url (client once)
     /\ hx_headers (client twice) = hx_headers (client once)
     /\ transport (client twice) = transport (client once)
     /\ trace (client twice) = (trace (client once) ++ [EvClose])%list
     /\ count_release (trace (client twice)) = count_release (trace (client once)))
  /\ (forall (A : Type) (body : M A) (self : MalloyAPIClient),
        fst (with_ body self) = fst (body self)
        /\ count_close (trace (client (snd (with_ body self))))
           = S (count_close (trace (client (snd (body self)))))
        /\ is_closed (client (snd (with_ body self))) = true).
Proof.
  split.
  - intros self once twice.
    assert (Hr : fst (close self) = Return tt) by reflexivity.
    assert (Hc : hx_state (client once) = CLOSED).
    { pose proof (close_closes self) as H. fold once in H. unfold is_closed in H.
      destruct (hx_state (client once)); congruence. }
    assert (Hi : is_closed (client once) = true) by apply close_closes.
    clearbody once. subst twice. rewrite (close_again once Hc). simpl.
    rewrite Hc. repeat split; try assumption.
    unfold count_release. rewrite filter_app, length_app. simpl. lia.
  - intros A body self. unfold with_, __enter__, __exit__, ret.
    destruct (body self) as [[a|e] self1]; simpl;
      (split; [reflexivity | split; [apply close_counts_once | apply close_closes]]).
Qed.

Lemma with_example :
  let after := with_ (get_package "home" "faa" None) (localhost offline) in
  fst after = Raise (TransportError "ConnectError")
  /\ count_close (trace (client (snd after))) = 1%nat
  /\ count_release (trace (client (snd after))) = 1%nat.
Proof. repeat split. Qed.

(** ** C10: when [versionId] is sent *)

Lemma snd_fmap {A B} (f : A -> B) (m : M A) (self : MalloyAPIClient) :
  snd (fmap f m self) = snd (m self).
Proof. unfold fmap, bind, ret. destruct (m self) as [[a|e] s]; reflexivity. Qed.

Lemma snd_request_then_decode {A B} (self : MalloyAPIClient) (path : string)
    (ps : list (string * string)) (f : Response -> Result A) (g : A -> Result B) :
  open_ self ->
  snd ((response <- client_get path ps ;; data <- lift (f response) ;; lift (g data)) self)
  = after_request self (request_for self path ps).
Proof.
  intros Ho. rewrite bind_lift_lift, (request_then_decode _ _ _ _ Ho). reflexivity.
Qed.

Lemma version_ops_send {sc : Scalars} (project_name package_name : string)
    (v : option string) (op : Operation) (self : MalloyAPIClient) :
  open_ self ->
  In op (version_ops project_name package_name v) ->
  exists path,
    snd (call op self) = after_request self (request_for self path (version_params v)).
Proof.
  intros Ho [<-|[<-|[<-|[<-|[]]]]]; simpl; rewrite snd_fmap;
    eexists; apply (snd_request_then_decode _ _ _ _ _ Ho).
Qed.

(** C10. On an open client, [get_package], [list_models], [list_databases]
    and [list_schedules] each send one request whose parameters hold
    [versionId] exactly when the [version_id] argument is neither None nor
    the empty string, and then with the argument as value and nothing
    else; in particular [version_id=""] sends no parameter at all. In
    [execute_query] a [version_id] of [""] that passes the checks is sent
    as [versionId] with the empty string. *)
Theorem versionId_sent_iff_version_id_is_truthy {sc : Scalars}
    (project_name package_name : string) (v : option string)
    (op : Operation) (self : MalloyAPIClient) :
  open_ self ->
  In op (version_ops project_name package_name v) ->
  (exists req,
     trace (client (snd (call op self))) = (trace (client self) ++ [EvRequest req])%list
     /\ (forall x, In ("versionId", x) (params req) <-> v = Some x /\ x <> "")
     /\ (forall k x, In (k, x) (params req) -> k = "versionId")
     /\ (v = Some "" -> params req = []))
  /\ (forall qp,
        version_id qp = Some "" ->
        validate_query_params qp = Return tt ->
        exists req,
          trace (client (snd (execute_query qp self)))
          = (trace (client self) ++ [EvRequest req])%list
          /\ In ("versionId", "") (params req)).
Proof.
  intros Ho Hop. split.
  - destruct (version_ops_send _ _ _ _ _ Ho Hop) as [path ->].
    eexists. split; [reflexivity|]. simpl. rewrite version_params_spec.
    destruct v as [s|]; [destruct (String.eqb_spec s "") as [->|Hs]|]; simpl.
    + split; [|split]; [intros x; split | | ]; simpl; try tauto.
      intros [[= <-] H]. apply H. reflexivity.
    + split; [|split]; simpl.
      * intros x; split; [intros [[= <-]|[]]; auto | intros [[= <-] _]; auto].
      * intros k x [[= <- _]|[]]. reflexivity.
      * intros [= ->]. contradiction.
    + split; [|split]; [intros x; split | | ]; simpl;
        try tauto; try discriminate. intros [H _]. discriminate.
  - intros qp Hv Hok. rewrite (execute_query_sends _ _ Hok Ho).
    eexists. split; [reflexivity|]. unfold after_request, request_for, params.
    apply drop_None_In. left. rewrite Hv. reflexivity.
Qed.

Lemma versionId_sent_iff_version_id_is_truthy_witness :
  (exists req,
     trace (client (snd (call (sc := json_numbers) (ListModels "home" "faa" (Some ""))
                           (localhost offline))))
     = (trace (client (localhost offline)) ++ [EvRequest req])%list
     /\ (forall x, In ("versionId", x) (params req) <-> Some "" = Some x /\ x <> "")
     /\ (forall k x, In (k, x) (params req) -> k = "versionId")
     /\ (Some "" = Some "" -> params req = []))
  /\ (forall qp,
        version_id qp = Some "" ->
        validate_query_params qp = Return tt ->
        exists req,
          trace (client (snd (execute_query qp (localhost offline))))
          = (trace (client (localhost offline)) ++ [EvRequest req])%list
          /\ In ("versionId", "") (params req)).
Proof.
  apply (versionId_sent_iff_version_id_is_truthy (sc := json_numbers)
           "home" "faa" (Some "") (ListModels "home" "faa" (Some ""))
           (localhost offline)).
  - reflexivity.
  - right. left. reflexivity.
Defined.

Lemma get_package_version_example :
  requests (trace (client (snd (get_package "home" "faa" (Some "v2")
                                  (localhost offline)))))
  = [mkRequest "/api/v0/projects/home/packages/faa"
       [("versionId", "v2")] []]
  /\ requests (trace (client (snd (get_package "home" "faa" (Some "")
                                     (localhost offline)))))
     = [mkRequest "/api/v0/projects/home/packages/faa" [] []]
  /\ requests (trace (client (snd (execute_query empty_version (localhost offline)))))
     = [mkRequest
          "/api/v0/projects/home/packages/faa/queryResults/flights.malloy"
          [("versionId", "")] []].
Proof. repeat split. Qed.

(** * Further properties of the client *)

(** ** Construction *)

Lemma rstrip_slash_empty_iff (s : string) :
  rstrip_slash s = "" <-> exists n, s = slashes n.
Proof.
  induction s as [|c s IH]; simpl.
  - split; [exists O; reflexivity | reflexivity].
  - destruct (rstrip_slash s) eqn:E.
    + destruct (Ascii.eqb_spec c "/") as [->|Hc].
      * split; [|reflexivity]. intros _.
        destruct (proj1 IH eq_refl) as [n ->]. exists (S n). reflexivity.
      * split; [discriminate|]. intros [[|n] H]; simpl in H; [discriminate|].
        inversion H. contradiction.
    + split; [discriminate|]. intros [[|n] H]; simpl in H; [discriminate|].
      inversion H; subst. assert (X : String a s0 = "") by (apply IH; eauto).
      discriminate.
Qed.

Lemma rstrip_slash_decompose (s : string) :
  exists n, s = rstrip_slash s ++ slashes n.
Proof.
  induction s as [|c s [n IH]]; simpl.
  - exists O. reflexivity.
  - destruct (rstrip_slash s) eqn:E.
    + simpl in IH. destruct (Ascii.eqb_spec c "/") as [->|Hc].
      * exists (S n). simpl. congruence.
      * exists n. simpl. congruence.
    + exists n. simpl. simpl in IH. congruence.
Qed.

Lemma rstrip_slash_no_trailing_slash (s : string) :
  ends_with_slash (rstrip_slash s) = false.
Proof.
  induction s as [|c s IH]; simpl; [reflexivity|].
  destruct (rstrip_slash s) eqn:E.
  - destruct (Ascii.eqb_spec c "/") as [->|Hc]; simpl; [reflexivity|].
    apply Ascii.eqb_neq, Hc.
  - exact IH.
Qed.

(** [__init__] keeps the base URL up to its trailing slashes: what is
    stored, on the client and on its HTTP client, is the argument without
    any slash at its end, and the argument is that string followed by
    slashes only. Nothing is sent and the client is not closed. *)
Theorem init_strips_trailing_slashes
    (net : Request -> Reply) (base : string) (key : option string) :
  let self := MalloyAPIClient_init net base key in
  ends_with_slash (base_url self) = false
  /\ (exists n, base = base_url self ++ slashes n)
  /\ hx_base_url (client self) = base_url self
  /\ api_key self = key
  /\ trace (client self) = []
  /\ is_closed (client self) = false.
Proof.
  simpl. repeat split.
  - apply rstrip_slash_no_trailing_slash.
  - apply rstrip_slash_decompose.
Qed.

Lemma init_strips_example :
  base_url (MalloyAPIClient_init offline "http://localhost:4000//" None)
  = "http://localhost:4000"
  /\ base_url (MalloyAPIClient_init offline "http://host/a/b" None) = "http://host/a/b"
  /\ base_url (MalloyAPIClient_init offline "///" None) = "".
Proof. repeat split. Qed.

(** ** What an operation does to the client *)

Lemma call_rejected {sc : Scalars} (op : Operation) (self : MalloyAPIClient) :
  accepted op = false ->
  exists msg, call op self = (Raise (ValueError msg), self).
Proof.
  destruct op as [| | | | | |qp| |]; simpl; try discriminate.
  unfold fmap, execute_query, bind, lift, validate_query_params.
  destruct (truthy (query qp) && truthy (query_name qp)); simpl;
    [intros _; eexists; reflexivity|].
  destruct (truthy (query_name qp) && negb (truthy (source_name qp))); simpl;
    [intros _; eexists; reflexivity | discriminate].
Qed.

Lemma call_open {sc : Scalars} (op : Operation) (self : MalloyAPIClient) :
  accepted op = true ->
  open_ self ->
  exists path ps,
    snd (call op self) = after_request self (request_for self path ps).
Proof.
  intros Ha Ho.
  destruct op; simpl; rewrite snd_fmap;
    try (eexists; eexists; apply (snd_request_then_decode _ _ _ _ _ Ho)).
  apply accepted_validates in Ha.
  eexists; eexists; apply (execute_query_sends _ _ Ha Ho).
Qed.

Lemma client_get_closed_raises (self : MalloyAPIClient) (path : string)
    (ps : list (string * string)) :
  is_closed (client self) = true ->
  client_get path ps self = (Raise (RuntimeError closed_message), self).
Proof.
  unfold is_closed, client_get, httpx_get.
  destruct self as [b k c]; simpl.
  destruct (hx_state c); intros H; try discriminate; reflexivity.
Qed.

Lemma call_closed {sc : Scalars} (op : Operation) (self : MalloyAPIClient) :
  accepted op = true ->
  is_closed (client self) = true ->
  call op self = (Raise (RuntimeError closed_message), self).
Proof.
  intros Ha Hc.
  destruct op; simpl; unfold fmap;
    [ unfold list_projects | unfold get_about | unfold list_packages
    | unfold get_package | unfold list_models | unfold get_model
    | unfold execute_query | unfold list_databases | unfold list_schedules ];
    try (unfold bind; rewrite (client_get_closed_raises _ _ _ Hc); reflexivity).
  apply accepted_validates in Ha.
  unfold bind at 1. unfold bind at 1. unfold lift at 1. rewrite Ha.
  unfold try_except, bind. rewrite (client_get_closed_raises _ _ _ Hc). reflexivity.
Qed.

(** Every operation whose arguments pass the caller-side checks makes, on
    an open client, exactly one request, whatever the server answers and
    whether the operation then returns or raises: the trace grows by that
    request alone (no retry, no close), the request carries the headers
    set on the client, and the client is open afterwards. *)
Theorem every_operation_sends_exactly_one_request {sc : Scalars}
    (op : Operation) (self : MalloyAPIClient) :
  accepted op = true ->
  open_ self ->
  exists req,
    trace (client (snd (call op self))) = (trace (client self) ++ [EvRequest req])%list
    /\ headers req = hx_headers (client self)
    /\ open_ (snd (call op self)).
Proof.
  intros Ha Ho. destruct (call_open op self Ha Ho) as (path & ps & ->).
  exists (request_for self path ps). repeat split.
Qed.

Lemma every_operation_sends_exactly_one_request_witness :
  exists req,
    trace (client (snd (call (sc := json_numbers) (GetAbout "home")
                          (localhost (always not_found)))))
    = (trace (client (localhost (always not_found))) ++ [EvRequest req])%list
    /\ headers req = hx_headers (client (localhost (always not_found)))
    /\ open_ (snd (call (sc := json_numbers) (GetAbout "home")
                     (localhost (always not_found)))).
Proof.
  apply (every_operation_sends_exactly_one_request (sc := json_numbers)
           (GetAbout "home") (localhost (always not_found))); reflexivity.
Defined.

(** ** Sequences of methods *)

Lemma step_keeps_settings {sc : Scalars} (m : Method) (self : MalloyAPIClient) :
  base_url (step m self) = base_url self
  /\ api_key (step m self) = api_key self
  /\ hx_base_url (client (step m self)) = hx_base_url (client self)
  /\ hx_headers (client (step m self)) = hx_headers (client self)
  /\ transport (client (step m self)) = transport (client self).
Proof.
  destruct m as [op|]; simpl.
  - destruct (accepted op) eqn:Ha.
    + destruct (is_closed (client self)) eqn:Hc.
      * rewrite (call_closed op self Ha Hc). repeat split.
      * destruct (call_open op self Ha Hc) as (path & ps & ->). repeat split.
    + destruct (call_rejected op self Ha) as [msg ->]. repeat split.
  - unfold httpx_close. simpl. destruct (hx_state (client self)); repeat split.
Qed.

Lemma step_closed {sc : Scalars} (m : Method) (self : MalloyAPIClient) :
  is_closed (client self) = true ->
  is_closed (client (step m self)) = true
  /\ requests (trace (client (step m self))) = requests (trace (client self))
  /\ count_release (trace (client (step m self))) = count_release (trace (client self)).
Proof.
  intros Hc. destruct m as [op|]; simpl.
  - destruct (accepted op) eqn:Ha.
    + rewrite (call_closed op self Ha Hc). repeat split. exact Hc.
    + destruct (call_rejected op self Ha) as [msg ->]. repeat split. exact Hc.
  - assert (Hs : hx_state (client self) = CLOSED)
      by (unfold is_closed in Hc; destruct (hx_state (client self)); congruence).
    unfold httpx_close, is_closed. simpl. rewrite Hs. simpl. rewrite ?Hs.
    unfold requests, count_release.
    rewrite flat_map_app, filter_app, length_app. simpl.
    rewrite app_nil_r. repeat split. lia.
Qed.

(** Once closed, always closed: whatever methods follow a [close], the
    client stays closed, every operation that gets past its argument
    checks raises RuntimeError, and no further request is ever sent nor is
    the transport released again. *)
Theorem closed_client_stays_closed_and_silent {sc : Scalars}
    (ms : list Method) (self : MalloyAPIClient) :
  is_closed (client self) = true ->
  is_closed (client (run ms self)) = true
  /\ requests (trace (client (run ms self))) = requests (trace (client self))
  /\ count_release (trace (client (run ms self))) = count_release (trace (client self))
  /\ forall op, accepted op = true ->
       fst (call op (run ms self)) = Raise (RuntimeError closed_message).
Proof.
  revert self; induction ms as [|m ms IH]; intros self Hc; simpl.
  - repeat split; [exact Hc|]. intros op Ha. rewrite (call_closed op self Ha Hc).
    reflexivity.
  - destruct (step_closed m self Hc) as (Hc' & Hr & Hn).
    destruct (IH (step m self) Hc') as (H1 & H2 & H3 & H4).
    unfold run in *. repeat split; try assumption; congruence.
Qed.

Lemma closed_client_stays_closed_and_silent_witness :
  let self := snd (close (localhost (always not_found))) in
  let ms := [Call (GetAbout "home"); Close; Call ListProjects] in
  is_closed (client (run (sc := json_numbers) ms self)) = true
  /\ requests (trace (client (run (sc := json_numbers) ms self)))
     = requests (trace (client self))
  /\ count_release (trace (client (run (sc := json_numbers) ms self)))
     = count_release (trace (client self))
  /\ forall op, accepted op = true ->
       fst (call (sc := json_numbers) op (run (sc := json_numbers) ms self))
       = Raise (RuntimeError closed_message).
Proof.
  apply (closed_client_stays_closed_and_silent (sc := json_numbers)
           [Call (GetAbout "home"); Close; Call ListProjects]
           (snd (close (localhost (always not_found))))).
  reflexivity.
Defined.

Lemma requests_app (tr tr' : list Event) :
  requests (tr ++ tr') = (requests tr ++ requests tr')%list.
Proof. apply flat_map_app. Qed.

Lemma count_release_app (tr tr' : list Event) :
  count_release (tr ++ tr') = (count_release tr + count_release tr')%nat.
Proof. unfold count_release. rewrite filter_app, length_app. reflexivity. Qed.

Lemma step_well_formed {sc : Scalars} (base : string) (key : option string)
    (m : Method) (self : MalloyAPIClient) :
  well_formed base key self -> well_formed base key (step m self).
Proof.
  intros (Hh & Hb & Hr & Hn).
  destruct (is_closed (client self)) eqn:Hc.
  - destruct (step_keeps_settings m self) as (_ & _ & Hb' & Hh' & _).
    destruct (step_closed m self Hc) as (Hc' & Hr' & Hn').
    unfold well_formed. rewrite Hh', Hb', Hr', Hn', Hc'. auto.
  - destruct m as [op|]; simpl.
    + destruct (accepted op) eqn:Ha.
      * destruct (call_open op self Ha Hc) as (path & ps & ->).
        unfold well_formed, after_request, is_closed; simpl.
        rewrite requests_app, count_release_app. simpl.
        repeat split; auto.
        -- apply Forall_app. split; [exact Hr|]. constructor; [|constructor].
           exact Hh.
        -- rewrite Hn. reflexivity.
      * destruct (call_rejected op self Ha) as [msg ->]. simpl.
        unfold well_formed. rewrite Hc. auto.
    + unfold well_formed, httpx_close, is_closed in *; simpl.
      destruct (hx_state (client self)); try discriminate; simpl;
        rewrite !requests_app, !count_release_app; simpl;
        rewrite !app_nil_r, Hn; repeat split; auto.
Qed.

Lemma init_well_formed (net : Request -> Reply) (base : string) (key : option string) :
  well_formed base key (MalloyAPIClient_init net base key).
Proof. repeat split. constructor. Qed.

Lemma run_well_formed {sc : Scalars} (base : string) (key : option string)
    (ms : list Method) (self : MalloyAPIClient) :
  well_formed base key self -> well_formed base key (run ms self).
Proof.
  revert self; induction ms as [|m ms IH]; intros self H; simpl; [exact H|].
  apply IH, step_well_formed, H.
Qed.

(** Whatever is done with a client after [__init__], every request it
    has sent carried exactly the headers the client set at construction:
    [Authorization: Bearer <api_key>] when a non-empty key was given, none
    of its own otherwise. *)
Theorem every_request_carries_the_configured_credentials {sc : Scalars}
    (net : Request -> Reply) (base : string) (key : option string)
    (ms : list Method) (req : Request) :
  In req (requests (trace (client (run ms (MalloyAPIClient_init net base key))))) ->
  (forall k, key = Some k -> k <> "" ->
             headers req = [("Authorization", "Bearer " ++ k)])
  /\ (key = None \/ key = Some "" -> headers req = []).
Proof.
  intros Hin.
  destruct (run_well_formed base key ms _ (init_well_formed net base key))
    as (_ & _ & Hr & _).
  rewrite Forall_forall in Hr. pose proof (Hr req Hin) as Hh.
  unfold sent_as_configured in Hh. rewrite Hh. split.
  - intros k -> Hk. simpl. destruct (String.eqb_spec k ""); [contradiction|reflexivity].
  - intros [->| ->]; reflexivity.
Qed.

Lemma every_request_carries_the_configured_credentials_witness :
  let req := mkRequest "/api/v0/projects/home/about" []
               [("Authorization", "Bearer s3cret")] in
  (forall k, Some "s3cret" = Some k -> k <> "" ->
             headers req = [("Authorization", "Bearer " ++ k)])
  /\ (Some "s3cret" = None \/ Some "s3cret" = Some "" -> headers req = []).
Proof.
  apply (every_request_carries_the_configured_credentials (sc := json_numbers)
           (always not_found) "http://localhost:4000/" (Some "s3cret")
           [Call ListProjects; Call (GetAbout "home")]).
  right. left. reflexivity.
Defined.

Lemma run_stays_closed {sc : Scalars} (ms : list Method) (self : MalloyAPIClient) :
  is_closed (client self) = true -> is_closed (client (run ms self)) = true.
Proof.
  revert self; induction ms as [|m ms IH]; intros self Hc; simpl; [exact Hc|].
  apply IH. apply (step_closed m self Hc).
Qed.

(** Over the whole life of a client, from [__init__] on and whatever the
    order of operations and calls to [close], the transport is released
    exactly once if the client is closed and not at all otherwise: never
    twice. *)
Theorem transport_is_released_once_iff_closed {sc : Scalars}
    (net : Request -> Reply) (base : string) (key : option string) (ms : list Method) :
  let self := run ms (MalloyAPIClient_init net base key) in
  count_release (trace (client self)) = (if is_closed (client self) then 1 else 0)%nat
  /\ (In Close ms -> is_closed (client self) = true).
Proof.
  simpl. split.
  - apply (run_well_formed base key ms _ (init_well_formed net base key)).
  - generalize (MalloyAPIClient_init net base key) as self.
    induction ms as [|m ms IH]; intros self; simpl; [tauto|].
    intros [->|Hin]; [|apply IH, Hin].
    apply run_stays_closed. apply close_closes.
Qed.

(** ** Outcomes by status code *)

Lemma only_raises_rbind {A B} (allowed : Exception -> bool)
    (r : Result A) (k : A -> Result B) :
  only_raises allowed r -> (forall a, only_raises allowed (k a)) ->
  only_raises allowed (rbind r k).
Proof. destruct r; simpl; auto. Qed.

Lemma only_raises_rmap {A B} (allowed : Exception -> bool)
    (f : A -> Result B) (l : list A) :
  (forall a, only_raises allowed (f a)) -> only_raises allowed (rmap f l).
Proof.
  intros Hf. induction l as [|x l IH]; simpl; [exact I|].
  apply only_raises_rbind; [apply Hf|]. intros y.
  apply only_raises_rbind; [exact IH|]. intros ys. exact I.
Qed.

Lemma only_raises_model_init {A} (name : string)
    (fields : list string -> Dict -> Validated A) (data : JSON) :
  only_raises is_decode_error (model_init name fields data).
Proof.
  destruct data; simpl; try reflexivity. destruct (fields [] members); simpl; auto.
Qed.

Lemma only_raises_py_iter (data : JSON) : only_raises is_decode_error (py_iter data).
Proof. destruct data; simpl; auto. Qed.

Lemma only_raises_py_setitem (k : string) (v data : JSON) :
  only_raises is_decode_error (py_setitem k v data).
Proof. destruct data; simpl; auto. Qed.

Lemma only_raises_py_pop (k : string) (data : JSON) :
  only_raises is_decode_error (py_pop k data).
Proof.
  destruct data; simpl; auto. destruct (dict_pop k members) as [[v rest]|]; simpl; auto.
Qed.

Ltac decode_safe :=
  repeat first
    [ exact I
    | apply only_raises_model_init
    | apply only_raises_py_iter
    | apply only_raises_py_setitem
    | apply only_raises_py_pop
    | apply only_raises_rmap; intros
    | match goal with
      | |- only_raises _ (let '(_, _) := ?a in _) => destruct a
      end
    | apply only_raises_rbind; [|intros] ].

Lemma decoder_only_raises {sc : Scalars} (op : Operation) (data : JSON) :
  only_raises is_decode_error (decoder op data).
Proof. destruct op; simpl; unfold rfmap; decode_safe. Qed.

(** With a server that responds, an operation is [_handle_response]
    followed by its decoding; the [except] clause of [execute_query] plays
    no part. *)
Lemma call_responded {sc : Scalars} (op : Operation) (self : MalloyAPIClient)
    (response : Response) :
  accepted op = true ->
  open_ self ->
  (forall req, transport (client self) req = Respond response) ->
  fst (call op self) = rbind (_handle_response response) (decoder op).
Proof.
  intros Ha Ho Ht.
  destruct (_handle_response response) as [data|e] eqn:Hr.
  - destruct op; simpl; unfold fmap, rfmap;
      [ unfold list_projects | unfold get_about | unfold list_packages
      | unfold get_package | unfold list_models | unfold get_model
      | unfold execute_query | unfold list_databases | unfold list_schedules ];
      try (run_request Ho Ht; rewrite Hr; simpl;
           match goal with |- context [rbind ?x ?k] => destruct (rbind x k) end;
           reflexivity).
    + run_request Ho Ht. rewrite Hr. simpl.
      destruct (About.init data); reflexivity.
    + run_request Ho Ht. rewrite Hr. simpl.
      destruct (Package.init data); reflexivity.
    + apply accepted_validates in Ha.
      unfold bind at 1. unfold bind at 1. unfold lift at 1. rewrite Ha.
      run_request Ho Ht. rewrite Hr. simpl.
      pose proof (only_raises_model_init "QueryResult" QueryResult.fields data) as Hd.
      unfold QueryResult.init.
      destruct (model_init "QueryResult" QueryResult.fields data) as [q|e];
        [reflexivity|].
      simpl in Hd. destruct e; simpl in *; try discriminate; reflexivity.
  - simpl. apply (call_raises op self response); auto.
    intros status ->. revert Hr. unfold _handle_response.
    destruct (HTTP_ERROR_STATUS <=? status_code response).
    + destruct (rbind (Response_json response) Error.init) as [x|e] eqn:E;
        [discriminate|].
      pose proof (only_raises_model_init "Error" Error.fields) as Hd.
      unfold Response_json, Error.init in E.
      destruct (json_body response) as [body|]; simpl in E.
      * specialize (Hd body). rewrite E in Hd. simpl in Hd.
        destruct e; simpl in Hd; discriminate.
      * inversion E; subst. discriminate.
    + unfold Response_json. destruct (json_body response); discriminate.
Qed.

Lemma handle_response_error (response : Response) :
  400 <= status_code response ->
  (exists m, _handle_response response = Raise (APIError (status_code response) m))
  \/ (json_body response = None /\ _handle_response response = Raise JSONDecodeError)
  \/ ((exists body, json_body response = Some body /\ forall d, body <> JObj d)
      /\ _handle_response response = Raise TypeError).
Proof.
  intros Hs. unfold _handle_response, HTTP_ERROR_STATUS, Response_json.
  apply Z.leb_le in Hs. rewrite Hs.
  destruct (json_body response) as [body|]; simpl; [|right; left; auto].
  destruct body; simpl;
    try (right; right; split; [eexists; split; [reflexivity | discriminate] | reflexivity]).
  left. destruct (Error.fields [] members); eexists; reflexivity.
Qed.

(** A response with a status of 400 or more never yields data, whatever
    its body, even a body that would decode as the operation's record:
    each operation raises APIError with that status when the body is a
    JSON object, JSONDecodeError when the body is not JSON, and TypeError
    when it is JSON of another kind. *)
Theorem error_status_never_yields_data {sc : Scalars}
    (op : Operation) (self : MalloyAPIClient) (response : Response) :
  accepted op = true ->
  open_ self ->
  (forall req, transport (client self) req = Respond response) ->
  400 <= status_code response ->
  (forall out, fst (call op self) <> Return out)
  /\ ((exists d m, json_body response = Some (JObj d)
                   /\ fst (call op self) = Raise (APIError (status_code response) m))
      \/ (json_body response = None /\ fst (call op self) = Raise JSONDecodeError)
      \/ ((exists body, json_body response = Some body /\ forall d, body <> JObj d)
          /\ fst (call op self) = Raise TypeError)).
Proof.
  intros Ha Ho Ht Hs. rewrite (call_responded op self response Ha Ho Ht).
  destruct (handle_response_error response Hs)
    as [[m Hm] | [[Hb Hm] | [Hb Hm]]]; rewrite Hm; simpl;
    (split; [discriminate|]); auto.
  left. revert Hm. unfold _handle_response, HTTP_ERROR_STATUS, Response_json.
  apply Z.leb_le in Hs. rewrite Hs.
  destruct (json_body response) as [[| | | | | |d]|]; simpl; try discriminate.
  intros _. exists d, m. auto.
Qed.

Lemma error_status_never_yields_data_witness :
  let response := mkResponse 500
        (Some (JObj [("name", JStr "faa"); ("description", JStr "FAA flights")])) in
  let self := localhost (always response) in
  let op := GetPackage "home" "faa" None in
  (forall out, fst (call (sc := json_numbers) op self) <> Return out)
  /\ ((exists d m, json_body response = Some (JObj d)
                   /\ fst (call (sc := json_numbers) op self)
                      = Raise (APIError (status_code response) m))
      \/ (json_body response = None
          /\ fst (call (sc := json_numbers) op self) = Raise JSONDecodeError)
      \/ ((exists body, json_body response = Some body /\ forall d, body <> JObj d)
          /\ fst (call (sc := json_numbers) op self) = Raise TypeError)).
Proof.
  apply (error_status_never_yields_data (sc := json_numbers)
           (GetPackage "home" "faa" None)
           (localhost (always (mkResponse 500
              (Some (JObj [("name", JStr "faa"); ("description", JStr "FAA flights")])))))
           (mkResponse 500
              (Some (JObj [("name", JStr "faa"); ("description", JStr "FAA flights")]))));
    solve [reflexivity | intros; reflexivity | simpl; lia].
Defined.

(** Whenever an operation raises APIError in answer to a response, the
    status it carries is the status of that response and is 400 or more,
    and the message is the [message] of an Error body or the text of the
    validation error of the body: a response below 400 never ends in
    APIError. *)
Theorem APIError_carries_the_status_of_the_response {sc : Scalars}
    (op : Operation) (self : MalloyAPIClient) (response : Response)
    (status : Z) (m : Message) :
  accepted op = true ->
  open_ self ->
  (forall req, transport (client self) req = Respond response) ->
  fst (call op self) = Raise (APIError status m) ->
  status = status_code response
  /\ 400 <= status
  /\ exists d, json_body response = Some (JObj d)
       /\ ((exists error, Error.fields [] d = Valid error
                          /\ m = Text (Error.message error))
           \/ (exists errs, Error.fields [] d = Invalid errs
                            /\ m = StrOf (mkValidationError "Error" errs))).
Proof.
  intros Ha Ho Ht. rewrite (call_responded op self response Ha Ho Ht).
  destruct (_handle_response response) as [data|e] eqn:Hr; simpl.
  - pose proof (decoder_only_raises op data) as Hd.
    destruct (decoder op data); [discriminate|].
    intros [= ->]. discriminate.
  - intros [= ->]. revert Hr.
    unfold _handle_response, HTTP_ERROR_STATUS, Response_json.
    destruct (400 <=? status_code response) eqn:Hs.
    + apply Z.leb_le in Hs.
      destruct (json_body response) as [[| | | | | |d]|]; simpl; try discriminate.
      destruct (Error.fields [] d) as [error|errs] eqn:E; intros [= <- <-];
        (split; [reflexivity | split; [exact Hs|]]); exists d; split; eauto.
    + destruct (json_body response); discriminate.
Qed.

Lemma APIError_carries_the_status_of_the_response_witness :
  404 = status_code not_found
  /\ 400 <= 404
  /\ exists d, json_body not_found = Some (JObj d)
       /\ ((exists error, Error.fields [] d = Valid error
                          /\ Text "no such package" = Text (Error.message error))
           \/ (exists errs, Error.fields [] d = Invalid errs
                            /\ Text "no such package"
                               = StrOf (mkValidationError "Error" errs))).
Proof.
  apply (APIError_carries_the_status_of_the_response (sc := json_numbers)
           (ListSchedules "home" "faa" None) (localhost (always not_found)) not_found
           404 (Text "no such package"));
    solve [reflexivity | intros; reflexivity].
Defined.

(** ** Failures of the transport *)

(** An exception raised by the transport (a connection failure, a
    timeout) comes out of the operation unchanged, after the one request
    that met it; the only exception is an HTTPStatusError inside
    [execute_query]. *)
Theorem transport_failure_propagates_unchanged {sc : Scalars}
    (op : Operation) (self : MalloyAPIClient) (e : Exception) :
  accepted op = true ->
  open_ self ->
  (forall req, transport (client self) req = Fail e) ->
  is_ExecuteQuery op && is_HTTPStatusError e = false ->
  fst (call op self) = Raise e
  /\ List.length (requests (trace (client (snd (call op self)))))
     = S (List.length (requests (trace (client self)))).
Proof.
  intros Ha Ho Ht He. split.
  - destruct op; simpl; unfold fmap;
      [ unfold list_projects | unfold get_about | unfold list_packages
      | unfold get_package | unfold list_models | unfold get_model
      | unfold execute_query | unfold list_databases | unfold list_schedules ];
      try (run_request Ho Ht; reflexivity).
    apply accepted_validates in Ha.
    unfold bind at 1. unfold bind at 1. unfold lift at 1. rewrite Ha.
    run_request Ho Ht. destruct e; simpl in *; try reflexivity. discriminate.
  - destruct (call_open op self Ha Ho) as (path & ps & ->). simpl.
    rewrite requests_app, length_app. simpl. lia.
Qed.

Lemma transport_failure_propagates_unchanged_witness :
  fst (call (sc := json_numbers) (ExecuteQuery named_query) (localhost offline))
  = Raise (TransportError "ConnectError")
  /\ List.length (requests (trace (client (snd (call (sc := json_numbers)
                     (ExecuteQuery named_query) (localhost offline))))))
     = S (List.length (requests (trace (client (localhost offline))))).
Proof.
  apply (transport_failure_propagates_unchanged (sc := json_numbers)
           (ExecuteQuery named_query) (localhost offline)
           (TransportError "ConnectError")); reflexivity.
Defined.

(** When the transport raises HTTPStatusError inside [execute_query], the
    statuses 400, 401, 404, 500 and 501 are turned into an APIError with
    the same status code and the message the code fixes for that status,
    whatever the arguments, the client and the server; an HTTPStatusError
    of any other status is raised again as it is. *)
Theorem execute_query_translates_HTTPStatusError
    (qp : QueryParams) (self : MalloyAPIClient) (status : Z) :
  validate_query_params qp = Return tt ->
  open_ self ->
  (forall req, transport (client self) req = Fail (HTTPStatusError status)) ->
  (status = 400 ->
   fst (execute_query qp self)
   = Raise (APIError 400 (Text "Bad request - invalid query parameters")))
  /\ (status = 401 ->
      fst (execute_query qp self)
      = Raise (APIError 401 (Text "Unauthorized - authentication required")))
  /\ (status = 404 ->
      fst (execute_query qp self)
      = Raise (APIError 404 (Text "Not found - project, package, or model not found")))
  /\ (status = 500 ->
      fst (execute_query qp self) = Raise (APIError 500 (Text "Internal server error")))
  /\ (status = 501 ->
      fst (execute_query qp self) = Raise (APIError 501 (Text "Not implemented")))
  /\ (~ In status [400; 401; 404; 500; 501] ->
      fst (execute_query qp self) = Raise (HTTPStatusError status)).
Proof.
  intros Hv Ho Ht. unfold execute_query.
  unfold bind at 1. unfold lift at 1. rewrite Hv.
  run_request Ho Ht.
  repeat split; try (intros ->; reflexivity).
  intros Hn.
  repeat match goal with
         | |- context [?s =? ?k] =>
             destruct (Z.eqb_spec s k); [exfalso; apply Hn; simpl; auto 6|]
         end.
  reflexivity.
Qed.

Lemma execute_query_translates_HTTPStatusError_witness :
  let self := localhost (fun _ => Fail (HTTPStatusError 404)) in
  (404 = 400 ->
   fst (execute_query named_query self)
   = Raise (APIError 400 (Text "Bad request - invalid query parameters")))
  /\ (404 = 401 ->
      fst (execute_query named_query self)
      = Raise (APIError 401 (Text "Unauthorized - authentication required")))
  /\ (404 = 404 ->
      fst (execute_query named_query self)
      = Raise (APIError 404 (Text "Not found - project, package, or model not found")))
  /\ (404 = 500 ->
      fst (execute_query named_query self)
      = Raise (APIError 500 (Text "Internal server error")))
  /\ (404 = 501 ->
      fst (execute_query named_query self) = Raise (APIError 501 (Text "Not implemented")))
  /\ (~ In 404 [400; 401; 404; 500; 501] ->
      fst (execute_query named_query self) = Raise (HTTPStatusError 404)).
Proof.
  apply (execute_query_translates_HTTPStatusError named_query
           (localhost (fun _ => Fail (HTTPStatusError 404))) 404);
    solve [reflexivity | intros; reflexivity].
Defined.

Lemma execute_query_translation_examples :
  fst (execute_query named_query (localhost (fun _ => Fail (HTTPStatusError 401))))
  = Raise (APIError 401 (Text "Unauthorized - authentication required"))
  /\ fst (execute_query named_query (localhost (fun _ => Fail (HTTPStatusError 403))))
     = Raise (HTTPStatusError 403)
  /\ fst (get_package "home" "faa" None (localhost (fun _ => Fail (HTTPStatusError 401))))
     = Raise (HTTPStatusError 401).
Proof. repeat split. Qed.

(** ** Decoding the body of a successful response *)

Lemma rmap_first_failure {A B} (f : A -> Result B) (pre post : list A) (x : A)
    (e : Exception) :
  Forall (fun a => exists b, f a = Return b) pre ->
  f x = Raise e ->
  rmap f (pre ++ x :: post) = Raise e.
Proof.
  intros Hpre Hx. induction Hpre as [|a pre [b Hb] _ IH]; simpl.
  - rewrite Hx. reflexivity.
  - rewrite Hb. simpl. rewrite IH. reflexivity.
Qed.

(** [get_package] on a successful response with a JSON object returns a
    Package exactly when [name] and [description] are both strings in the
    body, and then with those two strings: other keys are ignored, and a
    number or null in their place is not converted. *)
Theorem get_package_returns_iff_both_fields_are_strings
    (project_name package_name : string) (v : option string)
    (self : MalloyAPIClient) (response : Response) (d : Dict) (p : Package.t) :
  open_ self ->
  (forall req, transport (client self) req = Respond response) ->
  status_code response < 400 ->
  json_body response = Some (JObj d) ->
  fst (get_package project_name package_name v self) = Return p
  <-> dict_get "name" d = Some (JStr (Package.name p))
      /\ dict_get "description" d = Some (JStr (Package.description p)).
Proof.
  intros Ho Ht Hs Hb. unfold get_package. run_ok Ho Ht Hs Hb.
  unfold Package.fields, required.
  destruct (dict_get "name" d) as [[]|]; simpl;
    destruct (dict_get "description" d) as [[]|]; simpl;
    split; try discriminate; try (intros [H1 H2]; discriminate).
  - intros [= <-]. auto.
  - destruct p as [n ds]. simpl. intros [[= ->] [= ->]]. reflexivity.
Qed.

Lemma get_package_returns_iff_both_fields_are_strings_witness :
  let response := mkResponse 200
        (Some (JObj [("name", JStr "faa"); ("version", JInt 3);
                     ("description", JStr "FAA flights")])) in
  fst (get_package "home" "faa" None (localhost (always response)))
  = Return (Package.Build "faa" "FAA flights")
  <-> dict_get "name" [("name", JStr "faa"); ("version", JInt 3);
                       ("description", JStr "FAA flights")]
      = Some (JStr (Package.name (Package.Build "faa" "FAA flights")))
      /\ dict_get "description" [("name", JStr "faa"); ("version", JInt 3);
                                 ("description", JStr "FAA flights")]
         = Some (JStr (Package.description (Package.Build "faa" "FAA flights"))).
Proof.
  apply (get_package_returns_iff_both_fields_are_strings "home" "faa" None
           (localhost (always (mkResponse 200
              (Some (JObj [("name", JStr "faa"); ("version", JInt 3);
                           ("description", JStr "FAA flights")])))))
           (mkResponse 200
              (Some (JObj [("name", JStr "faa"); ("version", JInt 3);
                           ("description", JStr "FAA flights")]))));
    solve [reflexivity | intros; reflexivity | simpl; lia].
Defined.

(** The four plain collection operations decode a JSON array item by
    item, in order and all or nothing: the call returns a list exactly
    when every item decodes, and the list then has one record per item in
    the order of the array; no partial list is ever returned. *)
Theorem collections_decode_item_by_item {sc : Scalars}
    (project_name package_name : string) (v : option string)
    (self : MalloyAPIClient) (response : Response) (items : list JSON) :
  open_ self ->
  (forall req, transport (client self) req = Respond response) ->
  status_code response < 400 ->
  json_body response = Some (JArr items) ->
  (forall l, fst (list_projects self) = Return l
             <-> Forall2 (fun item x => Project.init item = Return x) items l)
  /\ (forall l, fst (list_packages project_name self) = Return l
                <-> Forall2 (fun item x => Package.init item = Return x) items l)
  /\ (forall l, fst (list_databases project_name package_name v self) = Return l
                <-> Forall2 (fun item x => Database.init item = Return x) items l)
  /\ (forall l, fst (list_schedules project_name package_name v self) = Return l
                <-> Forall2 (fun item x => Schedule.init item = Return x) items l).
Proof.
  intros Ho Ht Hs Hb. repeat split;
    try (unfold list_projects, list_packages, list_databases, list_schedules;
         run_ok Ho Ht Hs Hb; apply rmap_Return_iff).
Qed.

Lemma collections_decode_item_by_item_witness :
  let items := [JObj [("name", JStr "faa"); ("description", JStr "FAA flights")];
                JObj [("name", JStr "imdb"); ("description", JStr "Movies")]] in
  let self := localhost (always (mkResponse 200 (Some (JArr items)))) in
  (forall l, fst (list_projects self) = Return l
             <-> Forall2 (fun item x => Project.init item = Return x) items l)
  /\ (forall l, fst (list_packages "home" self) = Return l
                <-> Forall2 (fun item x => Package.init item = Return x) items l)
  /\ (forall l, fst (list_databases (sc := json_numbers) "home" "faa" None self)
                = Return l
                <-> Forall2 (fun item x => Database.init (sc := json_numbers) item
                                           = Return x) items l)
  /\ (forall l, fst (list_schedules (sc := json_numbers) "home" "faa" None self)
                = Return l
                <-> Forall2 (fun item x => Schedule.init (sc := json_numbers) item
                                           = Return x) items l).
Proof.
  apply (collections_decode_item_by_item (sc := json_numbers) "home" "faa" None
           (localhost (always (mkResponse 200 (Some (JArr
              [JObj [("name", JStr "faa"); ("description", JStr "FAA flights")];
               JObj [("name", JStr "imdb"); ("description", JStr "Movies")]])))))
           (mkResponse 200 (Some (JArr
              [JObj [("name", JStr "faa"); ("description", JStr "FAA flights")];
               JObj [("name", JStr "imdb"); ("description", JStr "Movies")]])))
           [JObj [("name", JStr "faa"); ("description", JStr "FAA flights")];
            JObj [("name", JStr "imdb"); ("description", JStr "Movies")]]);
    solve [reflexivity | intros; reflexivity | simpl; lia].
Defined.

Lemma list_packages_example :
  fst (list_packages "home"
         (localhost (always (mkResponse 200 (Some (JArr
            [JObj [("name", JStr "faa"); ("description", JStr "FAA flights")];
             JObj [("name", JStr "imdb"); ("description", JStr "Movies")]]))))))
  = Return [Package.Build "faa" "FAA flights"; Package.Build "imdb" "Movies"].
Proof. reflexivity. Qed.

(** A collection operation raises the exception of the first item that
    does not decode, and the records decoded before it are dropped. *)
Theorem list_packages_fails_on_first_bad_item
    (project_name : string) (self : MalloyAPIClient) (response : Response)
    (pre post : list JSON) (item : JSON) (e : Exception) :
  open_ self ->
  (forall req, transport (client self) req = Respond response) ->
  status_code response < 400 ->
  json_body response = Some (JArr (pre ++ item :: post)) ->
  Forall (fun x => exists p, Package.init x = Return p) pre ->
  Package.init item = Raise e ->
  fst (list_packages project_name self) = Raise e.
Proof.
  intros Ho Ht Hs Hb Hpre Hx. unfold list_packages. run_ok Ho Ht Hs Hb.
  apply rmap_first_failure; assumption.
Qed.

Lemma list_packages_fails_on_first_bad_item_witness :
  fst (list_packages "home"
         (localhost (always (mkResponse 200 (Some (JArr
            ([JObj [("name", JStr "faa"); ("description", JStr "FAA flights")]]
             ++ JObj [("name", JStr "imdb")] :: [JInt 7])))))))
  = Raise (PydanticValidationError
             (mkValidationError "Package" [mkErrorDetails ["description"] "missing"])).
Proof.
  apply (list_packages_fails_on_first_bad_item "home" _
           (mkResponse 200 (Some (JArr
              ([JObj [("name", JStr "faa"); ("description", JStr "FAA flights")]]
               ++ JObj [("name", JStr "imdb")] :: [JInt 7]))))
           [JObj [("name", JStr "faa"); ("description", JStr "FAA flights")]]
           [JInt 7] (JObj [("name", JStr "imdb")]));
    try solve [reflexivity | intros; reflexivity | simpl; lia].
  constructor; [|constructor]. eexists. reflexivity.
Defined.

(** A successful response whose body is not an array: an empty JSON
    object and an empty string are taken for an empty collection, since
    iterating them yields nothing; a non-empty object or string raises
    TypeError (its keys or characters are not mappings), and so do null,
    booleans and numbers (they are not iterable). *)
Theorem collection_bodies_that_are_not_arrays
    (project_name package_name : string) (v : option string)
    (self : MalloyAPIClient) (response : Response) (body : JSON) :
  open_ self ->
  (forall req, transport (client self) req = Respond response) ->
  status_code response < 400 ->
  json_body response = Some body ->
  (forall items, body <> JArr items) ->
  (body = JObj [] \/ body = JStr "" ->
   fst (list_packages project_name self) = Return []
   /\ fst (list_models project_name package_name v self) = Return [])
  /\ (body <> JObj [] -> body <> JStr "" ->
      fst (list_packages project_name self) = Raise TypeError
      /\ fst (list_models project_name package_name v self) = Raise TypeError).
Proof.
  intros Ho Ht Hs Hb Hn. unfold list_packages, list_models. run_ok Ho Ht Hs Hb.
  run_ok Ho Ht Hs Hb. split.
  - intros [->| ->]; split; reflexivity.
  - intros H1 H2.
    destruct body as [| | | |s|items|[|[k x] d]]; simpl; try (split; reflexivity);
      try congruence.
    destruct s; [congruence | split; reflexivity].
Qed.

Lemma collection_bodies_that_are_not_arrays_witness :
  let response := mkResponse 200 (Some (JObj [])) in
  (JObj [] = JObj [] \/ JObj [] = JStr "" ->
   fst (list_packages "home" (localhost (always response))) = Return []
   /\ fst (list_models "home" "faa" None (localhost (always response))) = Return [])
  /\ (JObj [] <> JObj [] -> JObj [] <> JStr "" ->
      fst (list_packages "home" (localhost (always response))) = Raise TypeError
      /\ fst (list_models "home" "faa" None (localhost (always response)))
         = Raise TypeError).
Proof.
  apply (collection_bodies_that_are_not_arrays "home" "faa" None
           (localhost (always (mkResponse 200 (Some (JObj [])))))
           (mkResponse 200 (Some (JObj []))) (JObj []));
    solve [reflexivity | intros; reflexivity | simpl; lia | discriminate].
Defined.

(** [list_models] first writes [packageName] into every item and only
    then decodes them. On a successful response with a JSON array it
    returns a list exactly when every item is a JSON object and decodes as
    a Model once stamped, one Model per item in order; and if any item is
    not an object the call raises TypeError, even when an item before it
    would have failed validation. *)
Theorem list_models_stamps_every_item_before_decoding
    (project_name package_name : string) (v : option string)
    (self : MalloyAPIClient) (response : Response) (items : list JSON) :
  open_ self ->
  (forall req, transport (client self) req = Respond response) ->
  status_code response < 400 ->
  json_body response = Some (JArr items) ->
  (forall ms, fst (list_models project_name package_name v self) = Return ms
              <-> Forall (fun item => is_object item = true) items
                  /\ Forall2 (fun item m => Model.init (stamp package_name item)
                                            = Return m) items ms)
  /\ (Exists (fun item => is_object item = false) items ->
      fst (list_models project_name package_name v self) = Raise TypeError).
Proof.
  intros Ho Ht Hs Hb. unfold list_models. run_ok Ho Ht Hs Hb.
  rewrite rmap_setitem. split.
  - intros ms. destruct (forallb is_object items) eqn:E; simpl.
    + rewrite rmap_Return_iff, Forall2_map_l.
      rewrite forallb_forall in E. rewrite Forall_forall. tauto.
    + split; [discriminate|]. intros [H _].
      rewrite Forall_forall, <- forallb_forall in H. congruence.
  - intros H. destruct (forallb is_object items) eqn:E; [|reflexivity].
    rewrite forallb_forall in E. apply Exists_exists in H.
    destruct H as (x & Hin & Hx). rewrite (E x Hin) in Hx. discriminate.
Qed.

Lemma list_models_stamps_every_item_before_decoding_witness :
  let items := [JObj [("path", JStr "flights.malloy")]; JInt 7] in
  let self := localhost (always (mkResponse 200 (Some (JArr items)))) in
  (forall ms, fst (list_models "home" "faa" None self) = Return ms
              <-> Forall (fun item => is_object item = true) items
                  /\ Forall2 (fun item m => Model.init (stamp "faa" item) = Return m)
                       items ms)
  /\ (Exists (fun item => is_object item = false) items ->
      fst (list_models "home" "faa" None self) = Raise TypeError).
Proof.
  apply (list_models_stamps_every_item_before_decoding "home" "faa" None
           (localhost (always (mkResponse 200 (Some (JArr
              [JObj [("path", JStr "flights.malloy")]; JInt 7])))))
           (mkResponse 200 (Some (JArr
              [JObj [("path", JStr "flights.malloy")]; JInt 7])))
           [JObj [("path", JStr "flights.malloy")]; JInt 7]);
    solve [reflexivity | intros; reflexivity | simpl; lia].
Defined.

Lemma list_models_error_precedence_example :
  fst (list_models "home" "faa" None
         (localhost (always (mkResponse 200 (Some (JArr
            [JObj [("path", JStr "flights.malloy")]; JInt 7]))))))
  = Raise TypeError
  /\ fst (list_packages "home"
            (localhost (always (mkResponse 200 (Some (JArr
               [JObj [("name", JStr "faa")]; JInt 7]))))))
     = Raise (PydanticValidationError
                (mkValidationError "Package" [mkErrorDetails ["description"] "missing"])).
Proof. split; reflexivity. Qed.

(** ** [get_model] on a successful response *)

(** What [get_model] does with the body of a successful response, case
    by case: a JSON array raises TypeError and any other non-object
    AttributeError (the rename calls [pop] on it); an object without
    [modelPath] raises KeyError, whatever else it holds, a [path] key
    included; an object whose [modelPath] is not a string fails validation
    with an entry located at [path], the name the value was moved to. *)
Theorem get_model_outcomes_by_body
    (project_name package_name model_name : string)
    (self : MalloyAPIClient) (response : Response) (body : JSON) :
  open_ self ->
  (forall req, transport (client self) req = Respond response) ->
  status_code response < 400 ->
  json_body response = Some body ->
  let outcome := fst (get_model project_name package_name model_name self) in
  (forall items, body = JArr items -> outcome = Raise TypeError)
  /\ (is_object body = false -> (forall items, body <> JArr items) ->
      outcome = Raise AttributeError)
  /\ (forall d, body = JObj d -> dict_get "modelPath" d = None ->
                outcome = Raise (KeyError "modelPath"))
  /\ (forall d x, body = JObj d -> dict_get "modelPath" d = Some x ->
                  (forall s, x <> JStr s) ->
                  exists errs, outcome = Raise (PydanticValidationError
                                                  (mkValidationError "Model" errs))
                               /\ In (mkErrorDetails ["path"] "string_type") errs).
Proof.
  intros Ho Ht Hs Hb. unfold get_model. run_ok Ho Ht Hs Hb. repeat split.
  - intros items ->. reflexivity.
  - intros Hn Ha. destruct body; try reflexivity; try discriminate.
    exfalso. apply (Ha items). reflexivity.
  - intros d -> Hd. simpl. apply dict_pop_None in Hd. rewrite Hd. reflexivity.
  - intros d x -> Hd Hx. simpl.
    destruct (dict_get_pop _ _ _ Hd) as [d' ->]. simpl.
    unfold Model.fields, required. rewrite !dict_get_set. simpl.
    assert (Hv : str_validator ["path"] x = fail_at ["path"] "string_type")
      by (destruct x; try reflexivity; exfalso; eapply Hx; reflexivity).
    rewrite Hv. simpl.
    destruct (match dict_get "type" d' with
              | Some x0 => ModelType_validator ["type"] x0
              | None => fail_at ["type"] "missing"
              end) as [ty|errs]; simpl;
      eexists; (split; [reflexivity|]); left; reflexivity.
Qed.

Lemma get_model_outcomes_by_body_witness :
  let body := JObj [("modelPath", JInt 3); ("type", JStr "source")] in
  let outcome := fst (get_model "home" "faa" "a.malloy"
                        (localhost (always (mkResponse 200 (Some body))))) in
  (forall items, body = JArr items -> outcome = Raise TypeError)
  /\ (is_object body = false -> (forall items, body <> JArr items) ->
      outcome = Raise AttributeError)
  /\ (forall d, body = JObj d -> dict_get "modelPath" d = None ->
                outcome = Raise (KeyError "modelPath"))
  /\ (forall d x, body = JObj d -> dict_get "modelPath" d = Some x ->
                  (forall s, x <> JStr s) ->
                  exists errs, outcome = Raise (PydanticValidationError
                                                  (mkValidationError "Model" errs))
                               /\ In (mkErrorDetails ["path"] "string_type") errs).
Proof.
  apply (get_model_outcomes_by_body "home" "faa" "a.malloy"
           (localhost (always (mkResponse 200
              (Some (JObj [("modelPath", JInt 3); ("type", JStr "source")])))))
           (mkResponse 200
              (Some (JObj [("modelPath", JInt 3); ("type", JStr "source")])))
           (JObj [("modelPath", JInt 3); ("type", JStr "source")]));
    solve [reflexivity | intros; reflexivity | simpl; lia].
Defined.

(** ** [execute_query]: what is accepted, what is decoded *)

(** The arguments of [execute_query] are accepted exactly when [query]
    and [query_name] are not both non-empty and a non-empty [query_name]
    comes with a non-empty [source_name]; in particular a call with
    neither a query nor a query name is accepted. On an open client an
    accepted call sends one request and a rejected call sends none. *)
Theorem execute_query_sends_iff_arguments_are_consistent
    (qp : QueryParams) (self : MalloyAPIClient) :
  open_ self ->
  (accepted (ExecuteQuery qp) = true
   <-> (truthy (query qp) = false \/ truthy (query_name qp) = false)
       /\ (truthy (query_name qp) = true -> truthy (source_name qp) = true))
  /\ List.length (requests (trace (client (snd (execute_query qp self)))))
     = (List.length (requests (trace (client self)))
        + if accepted (ExecuteQuery qp) then 1 else 0)%nat.
Proof.
  intros Ho. split.
  - simpl. unfold validate_query_params.
    destruct (truthy (query qp)), (truthy (query_name qp)), (truthy (source_name qp));
      simpl; intuition congruence.
  - destruct (accepted (ExecuteQuery qp)) eqn:Ha.
    + apply accepted_validates in Ha. rewrite (execute_query_sends _ _ Ha Ho).
      simpl. rewrite requests_app, length_app. reflexivity.
    + simpl in Ha. unfold execute_query, bind, lift.
      destruct (validate_query_params qp); [discriminate|]. simpl. lia.
Qed.

Lemma execute_query_sends_iff_arguments_are_consistent_witness :
  let qp := mkQueryParams "home" "faa" "flights.malloy" None None None None in
  (accepted (ExecuteQuery qp) = true
   <-> (truthy (query qp) = false \/ truthy (query_name qp) = false)
       /\ (truthy (query_name qp) = true -> truthy (source_name qp) = true))
  /\ List.length (requests (trace (client (snd (execute_query qp (localhost offline))))))
     = (List.length (requests (trace (client (localhost offline))))
        + if accepted (ExecuteQuery qp) then 1 else 0)%nat.
Proof.
  apply (execute_query_sends_iff_arguments_are_consistent
           (mkQueryParams "home" "faa" "flights.malloy" None None None None)
           (localhost offline)).
  reflexivity.
Defined.

Lemma required_by_name_str (alias name : string) (d : Dict) (s : string) :
  required_by_name alias name str_validator [] d = Valid s
  <-> wire_value alias name d = Some (JStr s).
Proof.
  unfold required_by_name, wire_value.
  destruct (dict_get alias d) as [x|]; [|destruct (dict_get name d) as [x|]];
    try (destruct x; simpl; split; intros [= ->]; reflexivity);
    split; discriminate.
Qed.

(** On a successful response with a JSON object, [execute_query] returns
    a QueryResult exactly when each of its three fields is a string in
    the body under its wire name (dataStyles, modelDef, queryResult) or,
    failing that, under its own name (data_styles, model_def,
    query_result); when both are present the wire name is the one read. *)
Theorem execute_query_reads_each_field_under_either_name
    (qp : QueryParams) (self : MalloyAPIClient) (response : Response)
    (d : Dict) (q : QueryResult.t) :
  validate_query_params qp = Return tt ->
  open_ self ->
  (forall req, transport (client self) req = Respond response) ->
  status_code response < 400 ->
  json_body response = Some (JObj d) ->
  fst (execute_query qp self) = Return q
  <-> wire_value "dataStyles" "data_styles" d = Some (JStr (QueryResult.data_styles q))
      /\ wire_value "modelDef" "model_def" d = Some (JStr (QueryResult.model_def q))
      /\ wire_value "queryResult" "query_result" d
         = Some (JStr (QueryResult.query_result q)).
Proof.
  intros Hv Ho Ht Hs Hb. unfold execute_query.
  unfold bind at 1. unfold lift at 1. rewrite Hv. run_ok Ho Ht Hs Hb.
  rewrite <- !required_by_name_str. unfold QueryResult.fields.
  destruct (required_by_name "dataStyles" "data_styles" str_validator [] d);
    destruct (required_by_name "modelDef" "model_def" str_validator [] d);
    destruct (required_by_name "queryResult" "query_result" str_validator [] d);
    simpl; split; try discriminate; try (intros (H1 & H2 & H3); discriminate).
  - intros [= <-]. auto.
  - destruct q. simpl. intros ([= ->] & [= ->] & [= ->]). reflexivity.
Qed.

Lemma execute_query_reads_each_field_under_either_name_witness :
  let d := [("data_styles", JStr "{}"); ("modelDef", JStr "m");
            ("model_def", JStr "ignored"); ("queryResult", JStr "r")] in
  let q := QueryResult.Build "{}" "m" "r" in
  fst (execute_query named_query (localhost (always (mkResponse 200 (Some (JObj d))))))
  = Return q
  <-> wire_value "dataStyles" "data_styles" d = Some (JStr (QueryResult.data_styles q))
      /\ wire_value "modelDef" "model_def" d = Some (JStr (QueryResult.model_def q))
      /\ wire_value "queryResult" "query_result" d
         = Some (JStr (QueryResult.query_result q)).
Proof.
  apply (execute_query_reads_each_field_under_either_name named_query
           (localhost (always (mkResponse 200 (Some (JObj
              [("data_styles", JStr "{}"); ("modelDef", JStr "m");
               ("model_def", JStr "ignored"); ("queryResult", JStr "r")])))))
           (mkResponse 200 (Some (JObj
              [("data_styles", JStr "{}"); ("modelDef", JStr "m");
               ("model_def", JStr "ignored"); ("queryResult", JStr "r")]))));
    solve [reflexivity | intros; reflexivity | simpl; lia].
Defined.

Lemma execute_query_either_name_example :
  fst (execute_query named_query
         (localhost (always (mkResponse 200 (Some (JObj
            [("data_styles", JStr "{}"); ("modelDef", JStr "m");
             ("model_def", JStr "ignored"); ("queryResult", JStr "r")]))))))
  = Return (QueryResult.Build "{}" "m" "r").
Proof. reflexivity. Qed.

(** ** Connection *)

(** A Connection needs only [name] and a valid [type]: with every
    sub-connection absent or null it decodes, with all four payloads
    None, whichever backend [type] names. *)
Theorem Connection_decodes_without_any_payload {sc : Scalars}
    (d : Dict) (n : string) (x : JSON) (ty : DatabaseType) :
  dict_get "name" d = Some (JStr n) ->
  dict_get "type" d = Some x ->
  DatabaseType_validator ["type"] x = Valid ty ->
  Forall (fun k => absent_or_null k d) payload_keys ->
  Connection.init (JObj d) = Return (Connection.Build n ty None None None None).
Proof.
  intros Hn Ht Hty Hp. unfold payload_keys in Hp.
  repeat match goal with
         | H : Forall _ (_ :: _) |- _ => inversion H; clear H; subst
         end.
  unfold Connection.init, model_init, Connection.fields, required, optional.
  rewrite Hn, Ht. simpl. rewrite Hty. simpl.
  repeat match goal with
         | H : absent_or_null _ _ |- _ => destruct H as [H|H]; rewrite H; clear H
         end; reflexivity.
Qed.

Lemma Connection_decodes_without_any_payload_witness :
  Connection.init (sc := json_numbers)
    (JObj [("name", JStr "warehouse"); ("type", JStr "snowflake");
           ("snowflakeConnection", JNull)])
  = Return (Connection.Build "warehouse" SNOWFLAKE None None None None).
Proof.
  apply (Connection_decodes_without_any_payload (sc := json_numbers)
           [("name", JStr "warehouse"); ("type", JStr "snowflake");
            ("snowflakeConnection", JNull)] "warehouse" (JStr "snowflake") SNOWFLAKE);
    try reflexivity.
  repeat constructor; solve [left; reflexivity | right; reflexivity].
Defined.

(** ** The alias generator *)

Lemma has_underscore_app (s1 s2 : string) :
  has_underscore (s1 ++ s2) = has_underscore s1 || has_underscore s2.
Proof.
  induction s1 as [|c s1 IH]; simpl; [reflexivity|]. rewrite IH, orb_assoc. reflexivity.
Qed.

Lemma case_keeps_underscores_out (c : ascii) :
  Ascii.eqb c "_" = false ->
  Ascii.eqb (upper c) "_" = false /\ Ascii.eqb (lower c) "_" = false.
Proof.
  destruct c as [b0 b1 b2 b3 b4 b5 b6 b7].
  destruct b0, b1, b2, b3, b4, b5, b6, b7; intros H; split;
    solve [reflexivity | discriminate H].
Qed.

Lemma map_lower_no_underscore (s : string) :
  has_underscore s = false -> has_underscore (map_string lower s) = false.
Proof.
  induction s as [|c s IH]; simpl; [reflexivity|].
  intros H. apply orb_false_iff in H. destruct H as [Hc Hs].
  destruct (case_keeps_underscores_out c Hc) as [_ ->]. simpl. apply IH, Hs.
Qed.

Lemma capitalize_no_underscore (w : string) :
  has_underscore w = false -> has_underscore (capitalize w) = false.
Proof.
  destruct w as [|c w]; simpl; [reflexivity|].
  intros H. apply orb_false_iff in H. destruct H as [Hc Hs].
  destruct (case_keeps_underscores_out c Hc) as [-> _]. simpl.
  apply map_lower_no_underscore, Hs.
Qed.

Lemma split_underscore_words (x : string) :
  split_underscore x <> []
  /\ Forall (fun w => has_underscore w = false) (split_underscore x).
Proof.
  induction x as [|c x [Hne IH]]; simpl.
  - split; [discriminate | repeat constructor].
  - destruct (Ascii.eqb c "_") eqn:Hc.
    + split; [discriminate | constructor; [reflexivity | exact IH]].
    + destruct (split_underscore x) as [|w ws]; [contradiction|].
      split; [discriminate|]. inversion IH; subst.
      constructor; [simpl; rewrite Hc; assumption | assumption].
Qed.

Lemma split_underscore_single (x : string) :
  has_underscore x = false -> split_underscore x = [x].
Proof.
  induction x as [|c x IH]; simpl; [reflexivity|].
  intros H. apply orb_false_iff in H. destruct H as [Hc Hx].
  rewrite Hc, (IH Hx). reflexivity.
Qed.

Lemma concat_no_underscore (words : list string) :
  Forall (fun w => has_underscore w = false) words ->
  has_underscore (String.concat "" words) = false.
Proof.
  induction 1 as [|w ws Hw Hws IH]; simpl; [reflexivity|].
  destruct ws as [|w' ws]; [exact Hw|].
  rewrite has_underscore_app, Hw. simpl. exact IH.
Qed.

(** The generated alias never contains an underscore; a name without
    underscores is its own alias, character for character (the first word
    is not re-cased); so generating twice changes nothing more. *)
Theorem alias_generator_removes_every_underscore (x : string) :
  has_underscore (alias_generator x) = false
  /\ (has_underscore x = false -> alias_generator x = x)
  /\ alias_generator (alias_generator x) = alias_generator x.
Proof.
  assert (H1 : forall y, has_underscore (alias_generator y) = false).
  { intros y. unfold alias_generator.
    destruct (split_underscore_words y) as [Hne Hw].
    destruct (split_underscore y) as [|w ws]; [reflexivity|].
    apply concat_no_underscore. inversion Hw; subst. constructor; [assumption|].
    clear - H2. induction H2; simpl; constructor; auto.
    apply capitalize_no_underscore. assumption. }
  assert (H2 : forall y, has_underscore y = false -> alias_generator y = y).
  { intros y Hy. unfold alias_generator. rewrite (split_underscore_single y Hy).
    reflexivity. }
  split; [apply H1 | split; [apply H2 | apply H2, H1]].
Qed.

(** On every field of CompiledModel and QueryResult that declares an
    alias, the alias generator of the class gives that same alias: the
    declarations and the generator agree. *)
Theorem declared_aliases_are_the_generated_ones :
  Forall (fun field => alias_generator (fst field) = snd field) declared_aliases.
Proof. repeat constructor. Qed.

Lemma alias_generator_examples :
  alias_generator "last_run_time" = "lastRunTime"
  /\ alias_generator "service_account_key_JSON" = "serviceAccountKeyJson"
  /\ alias_generator "Path" = "Path"
  /\ alias_generator "a__b_" = "aB"
  /\ alias_generator "" = "".
Proof. repeat split. Qed.

(** ** CompiledModel and Model *)

Lemma vap_Valid {A B} (f : Validated (A -> B)) (x : Validated A) (y : B) :
  f <*> x = Valid y -> exists g a, f = Valid g /\ x = Valid a /\ y = g a.
Proof.
  destruct f as [g|], x as [a|]; simpl; try discriminate.
  intros [= <-]. eauto.
Qed.

Lemma required_by_name_alias {A} (alias name : string) (v : Validator A)
    (loc : list string) (d : Dict) :
  dict_get alias d <> None ->
  required_by_name alias name v loc d = required alias v loc d.
Proof.
  unfold required_by_name, required. destruct (dict_get alias d); congruence.
Qed.

Lemma required_by_name_same {A} (k : string) (v : Validator A)
    (loc : list string) (d : Dict) :
  required_by_name k k v loc d = required k v loc d.
Proof.
  unfold required_by_name, required. destruct (dict_get k d); reflexivity.
Qed.

(** A body that decodes as a CompiledModel and gives the package under
    its wire name [packageName] also decodes as a Model, to the same
    package name, path and type. Without [packageName] this fails:
    CompiledModel also reads [package_name], Model does not. *)
Theorem CompiledModel_body_decodes_as_its_Model (d : Dict) (c : CompiledModel.t) :
  CompiledModel.init (JObj d) = Return c ->
  dict_get "packageName" d <> None ->
  Model.init (JObj d) = Return (CompiledModel.base c).
Proof.
  unfold CompiledModel.init, Model.init, model_init.
  destruct (CompiledModel.fields [] d) as [c'|] eqn:E; [|discriminate].
  intros [= ->] Hp. unfold CompiledModel.fields in E.
  repeat match goal with
         | H : _ <*> _ = Valid _ |- _ =>
             apply vap_Valid in H; destruct H as (? & ? & H & ? & ?); subst
         end.
  inversion E; subst; clear E.
  unfold Model.fields, CompiledModel.base. simpl.
  match goal with
  | H : required_by_name "packageName" _ _ _ _ = _ |- _ =>
      rewrite (required_by_name_alias _ _ _ _ _ Hp) in H; rewrite H
  end.
  repeat match goal with
         | H : required_by_name (alias_generator _) _ _ _ _ = _ |- _ =>
             simpl alias_generator in H; rewrite required_by_name_same in H;
             try rewrite H
         end.
  reflexivity.
Qed.

Lemma CompiledModel_body_decodes_as_its_Model_witness :
  Model.init
    (JObj [("packageName", JStr "faa"); ("path", JStr "flights.malloy");
           ("type", JStr "source"); ("malloyVersion", JStr "0.0.1");
           ("dataStyles", JObj []); ("modelDef", JNull);
           ("sources", JArr [JObj [("name", JStr "flights");
                                   ("views", JArr [JObj [("name", JStr "by_carrier")]])]]);
           ("queries", JArr []);
           ("notebookCells", JArr [JObj [("type", JStr "code"); ("text", JStr "run: q")]])])
  = Return (Model.Build "faa" "flights.malloy" SOURCE).
Proof.
  apply (CompiledModel_body_decodes_as_its_Model _
           (CompiledModel.Build "faa" "flights.malloy" SOURCE "0.0.1" (JObj []) JNull
              [Source.Build "flights" [] [View.Build "by_carrier" []]] []
              [NotebookCell.Build CODE "run: q" None None]));
    [reflexivity | discriminate].
Defined.

Lemma CompiledModel_reads_package_name_but_Model_does_not :
  let d := [("package_name", JStr "faa"); ("path", JStr "flights.malloy");
            ("type", JStr "notebook"); ("malloy_version", JStr "0.0.1");
            ("data_styles", JNull); ("model_def", JNull);
            ("sources", JArr []); ("queries", JArr []); ("notebook_cells", JArr [])] in
  CompiledModel.init (JObj d)
  = Return (CompiledModel.Build "faa" "flights.malloy" NOTEBOOK "0.0.1" JNull JNull [] [] [])
  /\ Model.init (JObj d)
     = Raise (PydanticValidationError
                (mkValidationError "Model" [mkErrorDetails ["packageName"] "missing"])).
Proof. split; reflexivity. Qed.

(** ** Error bodies that carry a message but no code *)

(** Error requires [code] as well as [message]: when the body of a
    response of 400 or more is a JSON object without [code], every
    operation raises APIError with the status preserved, but its message
    is the text of the validation error (which names [code] as missing),
    not the [message] the server sent. *)
Theorem error_body_without_code_loses_its_message {sc : Scalars}
    (op : Operation) (self : MalloyAPIClient) (response : Response) (d : Dict) :
  accepted op = true ->
  open_ self ->
  (forall req, transport (client self) req = Respond response) ->
  400 <= status_code response ->
  json_body response = Some (JObj d) ->
  dict_get "code" d = None ->
  exists errs,
    fst (call op self)
    = Raise (APIError (status_code response) (StrOf (mkValidationError "Error" errs)))
    /\ In (mkErrorDetails ["code"] "missing") errs.
Proof.
  intros Ha Ho Ht Hs Hb Hc.
  assert (E : exists errs, Error.fields [] d = Invalid errs
                           /\ In (mkErrorDetails ["code"] "missing") errs).
  { unfold Error.fields, required. rewrite Hc. simpl.
    destruct (dict_get "message" d) as [x|]; simpl;
      [destruct (str_validator ["message"] x); simpl|];
      eexists; (split; [reflexivity|]); left; reflexivity. }
  destruct E as (errs & He & Hin). exists errs. split; [|exact Hin].
  apply (invalid_error_object_raises_APIError op self response d errs); assumption.
Qed.

Lemma error_body_without_code_loses_its_message_witness :
  exists errs,
    fst (call (sc := json_numbers) (GetAbout "home")
           (localhost (always (mkResponse 403
              (Some (JObj [("message", JStr "forbidden")]))))))
    = Raise (APIError 403 (StrOf (mkValidationError "Error" errs)))
    /\ In (mkErrorDetails ["code"] "missing") errs.
Proof.
  apply (error_body_without_code_loses_its_message (sc := json_numbers)
           (GetAbout "home")
           (localhost (always (mkResponse 403
              (Some (JObj [("message", JStr "forbidden")])))))
           (mkResponse 403 (Some (JObj [("message", JStr "forbidden")])))
           [("message", JStr "forbidden")]);
    solve [reflexivity | intros; reflexivity | simpl; lia].
Defined.
